(** * server-watchdog-js-client: the client of [lib/client.js]

    A shallow embedding of [create], the [Client] closure and its methods,
    and the theorems that relate them to the specification.

    - JavaScript values are an inductive type; objects are finite maps from
      property names to values.
    - Synchronous code that may [throw] returns a [completion].
    - [async] functions are trees of [await] points: the only effects of the
      library are the call of [fetch] and the reading of the response body. *)

From Stdlib Require Import ZArith String List Bool Lia DecimalString.
From stdpp Require Import base option gmap strings.
Import ListNotations.

Local Open Scope string_scope.
Local Open Scope Z_scope.

(** ** Numbers *)

(** A JavaScript number is an IEEE-754 double.  The client only compares
    numbers, takes remainders and prints integers, all of which are exact, so
    a number is kept by its exact value: [NaN], an infinity, or [m * 2^e].
    The sign of zero is not kept: nothing in the client tells [-0] from [0]. *)
Inductive number : Type :=
| NaN
| Infinity (negative : bool)
| Finite (m e : Z).

Module Number.

Definition of_Z (z : Z) : number := Finite z 0.

(** Two finite values brought to a common exponent. *)
Definition align (m1 e1 m2 e2 : Z) : Z * Z * Z :=
  let e := Z.min e1 e2 in
  (m1 * 2 ^ (e1 - e), m2 * 2 ^ (e2 - e), e).

(** [a < b] *)
Definition lt (a b : number) : bool :=
  match a, b with
  | NaN, _ | _, NaN => false
  | Infinity true, Infinity true => false
  | Infinity true, _ => true
  | Infinity false, _ => false
  | Finite _ _, Infinity negative => negb negative
  | Finite m1 e1, Finite m2 e2 =>
      let '(x, y, _) := align m1 e1 m2 e2 in x <? y
  end.

(** [a > b] *)
Definition gt (a b : number) : bool := lt b a.

(** [a == b] on numbers *)
Definition eq (a b : number) : bool :=
  match a, b with
  | NaN, _ | _, NaN => false
  | Infinity s1, Infinity s2 => Bool.eqb s1 s2
  | Finite m1 e1, Finite m2 e2 =>
      let '(x, y, _) := align m1 e1 m2 e2 in x =? y
  | _, _ => false
  end.

(** [a != b] on numbers *)
Definition ne (a b : number) : bool := negb (eq a b).

(** [a % b]: the remainder of the truncated division, with the sign of the
    dividend ([Z.rem]); [NaN] when [a] is not finite or [b] is zero. *)
Definition rem (a b : number) : number :=
  match a, b with
  | NaN, _ | _, NaN => NaN
  | Infinity _, _ => NaN
  | Finite _ _, Infinity _ => a
  | Finite m1 e1, Finite m2 e2 =>
      let '(x, y, e) := align m1 e1 m2 e2 in
      if y =? 0 then NaN else Finite (Z.rem x y) e
  end.

(** ToBoolean on a number: [NaN] and zero are falsy. *)
Definition truthy (a : number) : bool :=
  match a with
  | NaN => false
  | Infinity _ => true
  | Finite m _ => negb (m =? 0)
  end.

(** The integer a number is, when it is one. *)
Definition to_Z (a : number) : option Z :=
  match a with
  | Finite m e =>
      if 0 <=? e then Some (m * 2 ^ e)
      else if m mod 2 ^ (- e) =? 0 then Some (m / 2 ^ (- e))
      else None
  | _ => None
  end.

End Number.

(** The decimal numeral of an integer, as [toString()] prints it. *)
Definition Z_toString (z : Z) : string := NilZero.string_of_int (Z.to_int z).

(** ** Values

    The values modelled are [undefined], [null], booleans, numbers, strings,
    and the arrays and plain objects built from them: finite and without
    cycles.  BigInts, symbols, functions and objects that contain themselves
    are outside the model. *)

#[warnings="-register-all"]
Inductive value : Type :=
| VUndefined
| VNull
| VBool (b : bool)
| VNumber (n : number)
| VString (s : string)
| VObject (props : gmap string value)
| VArray (elems : list value).

Definition typeof (v : value) : string :=
  match v with
  | VUndefined => "undefined"
  | VNull | VObject _ | VArray _ => "object"
  | VBool _ => "boolean"
  | VNumber _ => "number"
  | VString _ => "string"
  end.

Definition Array_isArray (v : value) : bool :=
  match v with VArray _ => true | _ => false end.

(** ToBoolean: what [if (v)] and [!v] test. *)
Definition truthy (v : value) : bool :=
  match v with
  | VUndefined | VNull => false
  | VBool b => b
  | VNumber n => Number.truthy n
  | VString s => negb (String.eqb s "")
  | VObject _ | VArray _ => true
  end.

(** [o.k] on a property map: a missing property reads as [undefined]. *)
Definition prop (o : gmap string value) (k : string) : value :=
  default VUndefined (o !! k).

(** [v.k] for a [v] that is not [null] or [undefined]; only own data
    properties are modelled. *)
Definition get (v : value) (k : string) : value :=
  match v with
  | VObject o => prop o k
  | _ => VUndefined
  end.

(** The own enumerable properties copied by [{ ...v }]. *)
Definition indexed (l : list value) : gmap string value :=
  list_to_map (imap (fun i x => (Z_toString (Z.of_nat i), x)) l).

Definition spread (v : value) : gmap string value :=
  match v with
  | VObject o => o
  | VArray l => indexed l
  | VString s => indexed (map (fun c => VString (String c EmptyString)) (list_ascii_of_string s))
  | _ => ∅
  end.

(** An object literal. *)
Definition object (fields : list (string * value)) : value :=
  VObject (list_to_map fields).

(** ** Exceptions and completions *)

Inductive exception : Type :=
| Error (message : string)
| ClientRequestError (message : string) (statusCode : Z)
| FetchError (message : string).

(** The result of code that may [throw]. *)
Inductive completion (A : Type) : Type :=
| Return (a : A)
| Throw (e : exception).
Arguments Return {A} a.
Arguments Throw {A} e.

#[global] Instance completion_ret : MRet completion := @Return.
#[global] Instance completion_bind : MBind completion := fun A B f c =>
  match c with
  | Return a => f a
  | Throw e => Throw e
  end.

(** ** The transport *)

(** The text [JSON.stringify(v)] is kept as a term: the serialiser is a
    built-in, and what the client decides is its argument.  On the values
    modelled it does not throw.  It writes strings and finite numbers as they
    are, and [NaN] and the infinities as [null]; what is said below of a field
    of a request is said of the argument, and is read of the text only for
    fields that are strings or finite numbers. *)
Inductive json_text : Type := JSON_stringify (v : value).

Record RequestInit : Type := {
  method : string;
  headers : list (string * string);
  timeout : number;
  body : json_text
}.

(** What node-fetch hands back: the status code of the HTTP response (the
    integer of the status line), and what reading its body as text or as JSON
    will settle to. *)
Record Response : Type := {
  status : Z;
  text : completion string;
  json : completion value
}.

(** An [async] function, up to its [await] points. *)
Inductive async (A : Type) : Type :=
| Resolve (a : A)
| Reject (e : exception)
| Await_fetch (url : string) (init : RequestInit) (k : completion Response -> async A)
| Await_text (r : Response) (k : completion string -> async A)
| Await_json (r : Response) (k : completion value -> async A).
Arguments Resolve {A} a.
Arguments Reject {A} e.
Arguments Await_fetch {A} url init k.
Arguments Await_text {A} r k.
Arguments Await_json {A} r k.

Definition settle {A} (c : completion A) : async A :=
  match c with
  | Return a => Resolve a
  | Throw e => Reject e
  end.

Fixpoint async_bind {A B} (f : A -> async B) (p : async A) : async B :=
  match p with
  | Resolve a => f a
  | Reject e => Reject e
  | Await_fetch url init k => Await_fetch url init (fun c => async_bind f (k c))
  | Await_text r k => Await_text r (fun c => async_bind f (k c))
  | Await_json r k => Await_json r (fun c => async_bind f (k c))
  end.

#[global] Instance async_ret : MRet async := @Resolve.
#[global] Instance async_mbind : MBind async := @async_bind.

(** [try { p } catch (err) { h }] *)
Fixpoint try_catch {A} (p : async A) (h : exception -> async A) : async A :=
  match p with
  | Resolve a => Resolve a
  | Reject e => h e
  | Await_fetch url init k => Await_fetch url init (fun c => try_catch (k c) h)
  | Await_text r k => Await_text r (fun c => try_catch (k c) h)
  | Await_json r k => Await_json r (fun c => try_catch (k c) h)
  end.

(** [await fetch(url, init)], [await response.text()], [await response.json()] *)
Definition fetch (url : string) (init : RequestInit) : async Response :=
  Await_fetch url init settle.
Definition Response_text (r : Response) : async string := Await_text r settle.
Definition Response_json (r : Response) : async value := Await_json r settle.

(** What a run does on the network, in order. *)
Inductive event : Type :=
| Fetched (url : string) (init : RequestInit)
| ReadText
| ReadJson.

(** The server and the network: what [fetch] settles to for a request. *)
Definition transport : Type := string -> RequestInit -> completion Response.

Fixpoint run {A} (net : transport) (p : async A) : completion A * list event :=
  match p with
  | Resolve a => (Return a, [])
  | Reject e => (Throw e, [])
  | Await_fetch url init k =>
      let (c, t) := run net (k (net url init)) in (c, Fetched url init :: t)
  | Await_text r k =>
      let (c, t) := run net (k (text r)) in (c, ReadText :: t)
  | Await_json r k =>
      let (c, t) := run net (k (json r)) in (c, ReadJson :: t)
  end.

Definition outcome {A} (net : transport) (p : async A) : completion A := fst (run net p).
Definition trace {A} (net : transport) (p : async A) : list event := snd (run net p).

(** ** The client *)

(** The options object once [create] has checked and completed it;
    [timeout_ms] is its [timeout] property. *)
Record ClientOptions : Type := {
  host : string;
  port : number;
  useSsl : bool;
  apiKey : string;
  defaultChannel : string;
  timeout_ms : number
}.

(** The private variables of the [Client] closure; [client_timeout] is its
    [timeout]. *)
Record ClientInstance : Type := {
  url_base : string;
  api_key : string;
  default_channel : string;
  client_timeout : number
}.

(** The request options [sendRequest] builds around a body. *)
Definition post (this : ClientInstance) (body : value) : RequestInit :=
  {| method := "POST";
     headers := [("Accept", "application/json");
                 ("Content-Type", "application/json");
                 ("X-Api-Key", api_key this)];
     timeout := client_timeout this;
     body := JSON_stringify body |}.

(** ** A configuration and three servers

    The options of [test/demo.js] and the client they make, and servers that
    answer every request the same way: with 200, with 500 and the body
    "boom", and with 500 and a body that cannot be read. *)

Definition demo_options : value :=
  object [("host", VString "127.0.0.1"); ("port", VNumber (Number.of_Z 3004));
          ("apiKey", VString "set-some-key"); ("defaultChannel", VString "default")].

(** The same options with one property set to another value. *)
Definition demo_with (k : string) (v : value) : value :=
  VObject (<[k := v]> (spread demo_options)).

Definition demo_client : ClientInstance :=
  {| url_base := "http://127.0.0.1:3004/";
     api_key := "set-some-key";
     default_channel := "default";
     client_timeout := Number.of_Z 30000 |}.

Definition demo_pid : number := Number.of_Z 4242.
Definition demo_execPath : string := "/usr/bin/node".

(** A stand-in for the numerals the client never prints, to run [create]. *)
Definition unreached_numeral : number -> string := fun _ => "".

Definition ok_response : Response :=
  {| status := 200; text := Return ""; json := Return (object [("ok", VBool true)]) |}.
Definition boom_response : Response :=
  {| status := 500; text := Return "boom"; json := Throw (FetchError "invalid json") |}.
Definition unreadable_response : Response :=
  {| status := 500; text := Throw (FetchError "aborted");
     json := Throw (FetchError "aborted") |}.

(** The request of [error("msg")] on the demo client. *)
Definition demo_request : RequestInit :=
  post demo_client (object [("message", VString "msg"); ("channel", VString "default");
                            ("severity", VString "error")]).

Definition server_ok : transport := fun _ _ => Return ok_response.
Definition server_boom : transport := fun _ _ => Return boom_response.
Definition server_unreadable : transport := fun _ _ => Return unreadable_response.

Section Client.

(** [require('process')]: the id of the running process and the path of its
    executable. *)
Variable process_pid : number.
Variable process_execPath : string.

(** [Number.prototype.toString] on a finite value that is not an integer
    of at most [2^53] in magnitude prints the shortest numeral that reads back
    as the same double.  It is a built-in that the client never reaches;
    everything below holds whatever it prints. *)
Variable shortest_numeral : number -> string.

Definition Number_toString (n : number) : string :=
  match n with
  | NaN => "NaN"
  | Infinity false => "Infinity"
  | Infinity true => "-Infinity"
  | Finite _ _ =>
      match Number.to_Z n with
      | Some z => if Z.abs z <=? 2 ^ 53 then Z_toString z else shortest_numeral n
      | None => shortest_numeral n
      end
  end.

Definition Client (client_options : ClientOptions) : ClientInstance :=
  {| url_base := "http" ++ (if useSsl client_options then "s" else "") ++ "://"
                   ++ host client_options ++ ":"
                   ++ Number_toString (port client_options) ++ "/";
     api_key := apiKey client_options;
     default_channel := defaultChannel client_options;
     client_timeout := timeout_ms client_options |}.

(** A test [typeof v !== 'string' || ...] is a match on [v] whose other arms
    throw; likewise for ['number'], ['boolean'] and ['undefined']. *)
Definition create (options : value) : completion ClientInstance :=
  (* validate options *)
  if negb (typeof options =? "object")%string || Array_isArray options then
    Throw (Error "Invalid options")
  else
  (* make a copy *)
  let options := spread options in
  (* check host *)
  host ← match prop options "host" with
         | VString s =>
             if (String.length s =? 0)%nat then Throw (Error "Invalid host")
             else Return s
         | _ => Throw (Error "Invalid host")
         end;
  (* check port *)
  port ← match prop options "port" with
         | VNumber n =>
             if Number.lt n (Number.of_Z 1) || Number.gt n (Number.of_Z 65535)
                || Number.ne (Number.rem n (Number.of_Z 1)) (Number.of_Z 0)
             then Throw (Error "Invalid port")
             else Return n
         | _ => Throw (Error "Invalid port")
         end;
  (* check use ssl *)
  useSsl ← match prop options "useSsl" with
           | VNumber n => Return (negb (negb (Number.truthy n)))
           | VUndefined => Return false
           | VBool b => Return b
           | _ => Throw (Error "Invalid use ssl")
           end;
  (* check api key *)
  apiKey ← match prop options "apiKey" with
           | VString s =>
               if (String.length s =? 0)%nat then Throw (Error "Invalid API key")
               else Return s
           | _ => Throw (Error "Invalid API key")
           end;
  (* check default channel *)
  defaultChannel ← match prop options "defaultChannel" with
                   | VString s =>
                       if (String.length s =? 0)%nat
                       then Throw (Error "Invalid default channel")
                       else Return s
                   | _ => Throw (Error "Invalid default channel")
                   end;
  (* check timeout *)
  timeout ← match prop options "timeout" with
            | VNumber n =>
                if Number.lt n (Number.of_Z 1)
                   || Number.ne (Number.rem n (Number.of_Z 1)) (Number.of_Z 0)
                then Throw (Error "Invalid timeout")
                else Return n
            | VUndefined => Return (Number.of_Z 30000)
            | _ => Throw (Error "Invalid timeout")
            end;
  Return (Client {| host := host; port := port; useSsl := useSsl; apiKey := apiKey;
                    defaultChannel := defaultChannel; timeout_ms := timeout |}).

(** *** Methods; [this] stands for the closure they live in *)

Section Methods.

Variable this : ClientInstance.

Definition getDefaultChannel : string := default_channel this.

Definition validateChannel (channel : value) : completion value :=
  if truthy channel && negb (typeof channel =? "string")%string then
    Throw (Error "Invalid channel")
  else
    Return (if truthy channel then channel else VString (default_channel this)).

Definition validateSeverity (severity : value) : completion value :=
  if negb (truthy severity) then Return (VString "error")
  else
    match severity with
    | VString s =>
        if negb (s =? "error")%string && negb (s =? "warn")%string
           && negb (s =? "info")%string
        then Throw (Error "Invalid severity")
        else Return severity
    | _ => Throw (Error "Invalid severity")
    end.

Definition sendRequest (url : string) (body options : value) : async value :=
  let opts := {| method := "POST";
                 headers := [("Accept", "application/json");
                             ("Content-Type", "application/json");
                             ("X-Api-Key", api_key this)];
                 timeout := client_timeout this;
                 body := JSON_stringify body |} in
  response ← fetch (url_base this ++ url) opts;
  if negb (status response =? 200) then
    text ← try_catch (s ← Response_text response; Resolve (Some s))
                     (fun _ => Resolve None);
    let text := match text with
                | Some s =>
                    if (String.length s =? 0)%nat
                    then "Unsuccessful response from node." else s
                | None => "Unsuccessful response from node."
                end in
    Reject (ClientRequestError
              (text ++ " [Status: " ++ Z_toString (status response) ++ "]")
              (status response))
  else
    if truthy options then
      if truthy (get options "no_response") then Resolve VUndefined
      else json ← Response_json response; Resolve json
    else json ← Response_json response; Resolve json.

Definition notify (message channel : value) (severity : string) : async value :=
  match message with
  | VString s =>
      if (String.length s =? 0)%nat then Resolve VUndefined
      else
        channel ← settle (validateChannel channel);
        _ ← sendRequest "notify"
              (object [("message", message); ("channel", channel);
                       ("severity", VString severity)])
              (object [("no_response", VBool true)]);
        Resolve VUndefined
  | _ => Reject (Error "Invalid message")
  end.

Definition error (message channel : value) : async value :=
  _ ← notify message channel "error"; Resolve VUndefined.

Definition warn (message channel : value) : async value :=
  _ ← notify message channel "warn"; Resolve VUndefined.

Definition info (message channel : value) : async value :=
  _ ← notify message channel "info"; Resolve VUndefined.

Definition processWatch (pid name severity channel : value) : async value :=
  let pid := if negb (truthy pid) then VNumber process_pid else pid in
  match pid with
  | VNumber n =>
      if Number.lt n (Number.of_Z 1)
         || Number.ne (Number.rem n (Number.of_Z 1)) (Number.of_Z 0)
      then Reject (Error "Invalid process id")
      else
        let name := if negb (truthy name) then VString process_execPath else name in
        severity ← settle (validateSeverity severity);
        channel ← settle (validateChannel channel);
        _ ← sendRequest "process/watch"
              (object [("pid", pid); ("name", name); ("channel", channel);
                       ("severity", severity)])
              (object [("no_response", VBool true)]);
        Resolve VUndefined
  | _ => Reject (Error "Invalid process id")
  end.

Definition processUnwatch (pid channel : value) : async value :=
  let pid := if negb (truthy pid) then VNumber process_pid else pid in
  match pid with
  | VNumber n =>
      if Number.lt n (Number.of_Z 1)
         || Number.ne (Number.rem n (Number.of_Z 1)) (Number.of_Z 0)
      then Reject (Error "Invalid process id")
      else
        channel ← settle (validateChannel channel);
        _ ← sendRequest "process/unwatch"
              (object [("pid", pid); ("channel", channel)])
              (object [("no_response", VBool true)]);
        Resolve VUndefined
  | _ => Reject (Error "Invalid process id")
  end.

End Methods.

(** *** The public operations *)

(** A call of one of the five asynchronous methods, with its arguments. *)
Inductive call : Type :=
| call_error (message channel : value)
| call_warn (message channel : value)
| call_info (message channel : value)
| call_processWatch (pid name severity channel : value)
| call_processUnwatch (pid channel : value).

Definition invoke (this : ClientInstance) (c : call) : async value :=
  match c with
  | call_error message channel => error this message channel
  | call_warn message channel => warn this message channel
  | call_info message channel => info this message channel
  | call_processWatch pid name severity channel =>
      processWatch this pid name severity channel
  | call_processUnwatch pid channel => processUnwatch this pid channel
  end.

(** The path a call posts to, and its channel argument. *)
Definition path_of (c : call) : string :=
  match c with
  | call_error _ _ | call_warn _ _ | call_info _ _ => "notify"
  | call_processWatch _ _ _ _ => "process/watch"
  | call_processUnwatch _ _ => "process/unwatch"
  end.

Definition channel_of (c : call) : value :=
  match c with
  | call_error _ channel | call_warn _ channel | call_info _ channel
  | call_processWatch _ _ _ channel | call_processUnwatch _ channel => channel
  end.

(** The detail of a failed request: the body text of the response, or the
    generic sentence when the text cannot be read or is empty. *)
Definition diagnostic (r : Response) : string :=
  match text r with
  | Return "" => "Unsuccessful response from node."
  | Return s => s
  | Throw _ => "Unsuccessful response from node."
  end.

(** *** The construction contract, in the words of the specification *)

Inductive check : Type :=
| check_options
| check_host
| check_port
| check_useSsl
| check_apiKey
| check_defaultChannel
| check_timeout.

Definition checks_in_order : list check :=
  [check_options; check_host; check_port; check_useSsl; check_apiKey;
   check_defaultChannel; check_timeout].

Definition check_message (c : check) : string :=
  match c with
  | check_options => "Invalid options"
  | check_host => "Invalid host"
  | check_port => "Invalid port"
  | check_useSsl => "Invalid use ssl"
  | check_apiKey => "Invalid API key"
  | check_defaultChannel => "Invalid default channel"
  | check_timeout => "Invalid timeout"
  end.

(** [options.k], read where the property is absent as [undefined]. *)
Definition option_of (options : value) (k : string) : value :=
  prop (spread options) k.

Definition nonempty_string (v : value) : bool :=
  match v with
  | VString "" => false
  | VString _ => true
  | _ => false
  end.

(** A number that is an integer [z] with [lo <= z], and [z <= hi] when there
    is an upper bound. *)
Definition integer_within (lo : Z) (hi : option Z) (v : value) : bool :=
  match v with
  | VNumber n =>
      match Number.to_Z n with
      | Some z => (lo <=? z) && match hi with Some h => z <=? h | None => true end
      | None => false
      end
  | _ => false
  end.

Definition passes (c : check) (options : value) : bool :=
  match c with
  | check_options => (typeof options =? "object")%string && negb (Array_isArray options)
  | check_host => nonempty_string (option_of options "host")
  | check_port => integer_within 1 (Some 65535) (option_of options "port")
  | check_useSsl =>
      match option_of options "useSsl" with
      | VBool _ | VNumber _ | VUndefined => true
      | _ => false
      end
  | check_apiKey => nonempty_string (option_of options "apiKey")
  | check_defaultChannel => nonempty_string (option_of options "defaultChannel")
  | check_timeout =>
      match option_of options "timeout" with
      | VUndefined => true
      | given => integer_within 1 None given
      end
  end.

Definition first_failing (options : value) : option check :=
  List.find (fun c => negb (passes c options)) checks_in_order.

(** The settings an accepted options object stands for. *)
Definition useSsl_of (options : value) : bool :=
  match option_of options "useSsl" with
  | VBool b => b
  | VNumber n => Number.truthy n
  | _ => false
  end.

Definition timeout_of (options : value) : number :=
  match option_of options "timeout" with
  | VNumber n => n
  | _ => Number.of_Z 30000
  end.

(** The rejected constructions the specification lists. *)
Definition listed_failure (options : value) : Prop :=
  option_of options "host" = VUndefined
  \/ option_of options "host" = VString ""
  \/ (exists n, option_of options "port" = VNumber n
       /\ (Number.to_Z n = Some 0 \/ Number.to_Z n = Some 65536 \/ Number.to_Z n = None))
  \/ option_of options "apiKey" = VString ""
  \/ option_of options "defaultChannel" = VString ""
  \/ (exists n, option_of options "timeout" = VNumber n
       /\ ((exists z, Number.to_Z n = Some z /\ z <= 0) \/ Number.to_Z n = None)).

(** What a call that posts [body] to [path] and awaits the answer ends with,
    and what it did on the network. *)
Definition exchange (this : ClientInstance) (net : transport)
    (path : string) (body : value) : completion value * list event :=
  let request := Fetched (url_base this ++ path) (post this body) in
  match net (url_base this ++ path) (post this body) with
  | Throw e => (Throw e, [request])
  | Return r =>
      if negb (status r =? 200) then
        (Throw (ClientRequestError
                  (diagnostic r ++ " [Status: " ++ Z_toString (status r) ++ "]")
                  (status r)),
         [request; ReadText])
      else (Return VUndefined, [request])
  end.

(** The pid a call works with: the argument, or [process.pid] when the
    argument is falsy. *)
Definition effective_pid (pid : value) : value :=
  if truthy pid then pid else VNumber process_pid.

Definition effective_name (name : value) : value :=
  if truthy name then name else VString process_execPath.

(** The values [validateSeverity] lets through. *)
Definition is_severity (v : value) : Prop :=
  v = VString "error" \/ v = VString "warn" \/ v = VString "info".


(** A notification whose message is the empty string. *)
Definition empty_notification (c : call) : bool :=
  match c with
  | call_error (VString "") _ | call_warn (VString "") _ | call_info (VString "") _ => true
  | _ => false
  end.

(** *** Further vocabulary *)

(** The properties of the options object that [create] reads. *)
Definition option_names : list string :=
  ["host"; "port"; "useSsl"; "apiKey"; "defaultChannel"; "timeout"].

(** A channel argument [validateChannel] lets through. *)
Definition channel_ok (channel : value) : Prop :=
  truthy channel = false \/ typeof channel = "string".

(** A severity argument [validateSeverity] lets through. *)
Definition severity_ok (severity : value) : Prop :=
  truthy severity = false \/ is_severity severity.

(** A name that is a string, or falsy and so replaced by a string: the
    names whose serialisation is the name itself. *)
Definition name_ok (name : value) : Prop :=
  truthy name = false \/ typeof name = "string".

(** A message [notify] sends. *)
Definition message_ok (message : value) : Prop :=
  exists s, message = VString s /\ s <> "".

(** The calls whose arguments pass every test that stands before
    [sendRequest]. *)
Definition well_formed (c : call) : Prop :=
  match c with
  | call_error message channel | call_warn message channel
  | call_info message channel =>
      message_ok message /\ channel_ok channel
  | call_processWatch pid _ severity channel =>
      integer_within 1 None (effective_pid pid) = true
      /\ severity_ok severity /\ channel_ok channel
  | call_processUnwatch pid channel =>
      integer_within 1 None (effective_pid pid) = true /\ channel_ok channel
  end.

(** The name of a call, where it has one, is a string or falsy. *)
Definition names_ok (c : call) : Prop :=
  match c with
  | call_processWatch _ name _ _ => name_ok name
  | _ => True
  end.

(** The severity [error], [warn] and [info] fix. *)
Definition level_of (c : call) : option string :=
  match c with
  | call_error _ _ => Some "error"
  | call_warn _ _ => Some "warn"
  | call_info _ _ => Some "info"
  | _ => None
  end.

(** What is read of the response after the request, by what [fetch] settled
    to: the text of a body whose status is not 200, and nothing otherwise. *)
Definition reads_after (answer : completion Response) : list event :=
  match answer with
  | Return r => if status r =? 200 then [] else [ReadText]
  | Throw _ => []
  end.

(** A network on which every [fetch] is refused. *)
Definition server_down : transport := fun _ _ => Throw (FetchError "ECONNREFUSED").

(** ** Facts about numbers *)

Lemma Number_align_int_r (m e k : Z) :
  Number.align m e k 0 = if 0 <=? e then (m * 2 ^ e, k, 0) else (m, k * 2 ^ (- e), e).
Proof.
  unfold Number.align. destruct (Z.leb_spec 0 e).
  - rewrite Z.min_r by lia. rewrite !Z.sub_0_r. simpl (2 ^ 0). now rewrite Z.mul_1_r.
  - rewrite Z.min_l by lia. rewrite Z.sub_diag, Z.sub_0_l. simpl (2 ^ 0).
    now rewrite Z.mul_1_r.
Qed.

Lemma Number_align_int_l (m e k : Z) :
  Number.align k 0 m e = if 0 <=? e then (k, m * 2 ^ e, 0) else (k * 2 ^ (- e), m, e).
Proof.
  unfold Number.align. destruct (Z.leb_spec 0 e).
  - rewrite Z.min_l by lia. rewrite !Z.sub_0_r. simpl (2 ^ 0). now rewrite Z.mul_1_r.
  - rewrite Z.min_r by lia. rewrite Z.sub_diag, Z.sub_0_l. simpl (2 ^ 0).
    now rewrite Z.mul_1_r.
Qed.

(** [n % 1 != 0] is false exactly on the integers. *)
Lemma Number_rem_1_ne_0 (n : number) :
  Number.ne (Number.rem n (Number.of_Z 1)) (Number.of_Z 0) = false
  <-> exists z, Number.to_Z n = Some z.
Proof.
  destruct n as [| s | m e].
  - simpl. split; [discriminate | intros [z Hz]; discriminate].
  - simpl. split; [discriminate | intros [z Hz]; discriminate].
  - unfold Number.ne, Number.rem, Number.of_Z, Number.to_Z. rewrite Number_align_int_r.
    destruct (Z.leb_spec 0 e) as [He | He].
    + simpl. rewrite Z.rem_1_r. unfold Number.eq, Number.align. simpl. split; eauto.
    + assert (Hp : 0 < 2 ^ (- e)) by (apply Z.pow_pos_nonneg; lia).
      rewrite Z.mul_1_l.
      destruct (Z.eqb_spec (2 ^ (- e)) 0) as [H0 | _]; [lia |].
      unfold Number.eq. rewrite Number_align_int_r.
      replace (0 <=? e) with false by (symmetry; apply Z.leb_gt; lia).
      rewrite Z.mul_0_l.
      destruct (Z.eqb_spec (Z.rem m (2 ^ (- e))) 0) as [Hr | Hr]; simpl.
      * apply Z.rem_divide in Hr; [| lia]. apply Z.mod_divide in Hr; [| lia].
        rewrite Hr. simpl. split; eauto.
      * destruct (Z.eqb_spec (m mod 2 ^ (- e)) 0) as [Hm | Hm].
        -- exfalso. apply Hr. apply Z.rem_divide; [lia |].
           apply Z.mod_divide; [lia | exact Hm].
        -- split; [discriminate | intros [z Hz]; discriminate].
Qed.

Lemma Number_lt_to_Z (n : number) (z k : Z) :
  Number.to_Z n = Some z -> Number.lt n (Number.of_Z k) = (z <? k).
Proof.
  destruct n as [| s | m e]; try discriminate.
  unfold Number.of_Z, Number.lt, Number.to_Z. rewrite Number_align_int_r.
  destruct (Z.leb_spec 0 e) as [He | He].
  - intros [= <-]. reflexivity.
  - assert (Hp : 0 < 2 ^ (- e)) by (apply Z.pow_pos_nonneg; lia).
    destruct (Z.eqb_spec (m mod 2 ^ (- e)) 0) as [Hm | Hm]; [| discriminate].
    intros [= <-].
    pose proof (Z.div_mod m (2 ^ (- e)) ltac:(lia)) as Hd. rewrite Hm in Hd.
    set (q := m / 2 ^ (- e)) in *.
    destruct (Z.ltb_spec m (k * 2 ^ (- e))), (Z.ltb_spec q k); try reflexivity; nia.
Qed.

Lemma Number_gt_to_Z (n : number) (z k : Z) :
  Number.to_Z n = Some z -> Number.gt n (Number.of_Z k) = (k <? z).
Proof.
  unfold Number.gt. destruct n as [| s | m e]; try discriminate.
  unfold Number.of_Z, Number.lt, Number.to_Z. rewrite Number_align_int_l.
  destruct (Z.leb_spec 0 e) as [He | He].
  - intros [= <-]. reflexivity.
  - assert (Hp : 0 < 2 ^ (- e)) by (apply Z.pow_pos_nonneg; lia).
    destruct (Z.eqb_spec (m mod 2 ^ (- e)) 0) as [Hm | Hm]; [| discriminate].
    intros [= <-].
    pose proof (Z.div_mod m (2 ^ (- e)) ltac:(lia)) as Hd. rewrite Hm in Hd.
    set (q := m / 2 ^ (- e)) in *.
    destruct (Z.ltb_spec (k * 2 ^ (- e)) m), (Z.ltb_spec k q); try reflexivity; nia.
Qed.

(** The port test of [create] and the pid and timeout test, by value. *)
Lemma port_test (n : number) :
  Number.lt n (Number.of_Z 1) || Number.gt n (Number.of_Z 65535)
  || Number.ne (Number.rem n (Number.of_Z 1)) (Number.of_Z 0)
  = negb (integer_within 1 (Some 65535) (VNumber n)).
Proof.
  unfold integer_within. destruct (Number.to_Z n) as [z |] eqn:Hz.
  - rewrite (Number_lt_to_Z _ _ _ Hz), (Number_gt_to_Z _ _ _ Hz).
    replace (Number.ne _ _) with false
      by (symmetry; apply Number_rem_1_ne_0; eauto).
    rewrite orb_false_r.
    destruct (Z.ltb_spec z 1), (Z.ltb_spec 65535 z), (Z.leb_spec 1 z),
      (Z.leb_spec z 65535); simpl; try reflexivity; lia.
  - destruct (Number.ne _ _) eqn:Hne; [now rewrite orb_true_r |].
    apply Number_rem_1_ne_0 in Hne. destruct Hne as [z Hz']. congruence.
Qed.

Lemma positive_test (n : number) :
  Number.lt n (Number.of_Z 1)
  || Number.ne (Number.rem n (Number.of_Z 1)) (Number.of_Z 0)
  = negb (integer_within 1 None (VNumber n)).
Proof.
  unfold integer_within. destruct (Number.to_Z n) as [z |] eqn:Hz.
  - rewrite (Number_lt_to_Z _ _ _ Hz).
    replace (Number.ne _ _) with false
      by (symmetry; apply Number_rem_1_ne_0; eauto).
    rewrite orb_false_r, andb_true_r.
    destruct (Z.ltb_spec z 1), (Z.leb_spec 1 z); simpl; try reflexivity; lia.
  - destruct (Number.ne _ _) eqn:Hne; [now rewrite orb_true_r |].
    apply Number_rem_1_ne_0 in Hne. destruct Hne as [z Hz']. congruence.
Qed.

(** An integer of at most [2^53] in magnitude prints as its decimal numeral. *)
Lemma Number_toString_integer (n : number) (z : Z) :
  Number.to_Z n = Some z -> Z.abs z <= 2 ^ 53 -> Number_toString n = Z_toString z.
Proof.
  intros Hz Hlt. destruct n as [| s | m e]; try discriminate.
  unfold Number_toString. rewrite Hz.
  destruct (Z.leb_spec (Z.abs z) (2 ^ 53)); [reflexivity | lia].
Qed.

(** ** Facts about runs *)

Lemma run_bind {A B : Type} (net : transport) (p : async A) (f : A -> async B) :
  run net (p ≫= f) =
    match run net p with
    | (Return a, t) => let (c, t') := run net (f a) in (c, (t ++ t')%list)
    | (Throw e, t) => (Throw e, t)
    end.
Proof.
  unfold mbind, async_mbind.
  induction p as [a | e | url init k IH | r k IH | r k IH]; simpl.
  - destruct (run net (f a)); reflexivity.
  - reflexivity.
  - rewrite IH. destruct (run net (k (net url init))) as [[a | e] t]; [| reflexivity].
    destruct (run net (f a)); reflexivity.
  - rewrite IH. destruct (run net (k (text r))) as [[a | e] t]; [| reflexivity].
    destruct (run net (f a)); reflexivity.
  - rewrite IH. destruct (run net (k (json r))) as [[a | e] t]; [| reflexivity].
    destruct (run net (f a)); reflexivity.
Qed.

Lemma run_settle {A : Type} (net : transport) (c : completion A) :
  run net (settle c) = (c, []).
Proof. destruct c; reflexivity. Qed.

(** Every run of [sendRequest]: one [fetch]; then, by the status of the
    response, the text of the body is read for the error, nothing is read, or
    the body is parsed. *)
Lemma run_sendRequest (this : ClientInstance) (net : transport)
    (url : string) (body options : value) :
  run net (sendRequest this url body options) =
    let request := Fetched (url_base this ++ url) (post this body) in
    match net (url_base this ++ url) (post this body) with
    | Throw e => (Throw e, [request])
    | Return r =>
        if negb (status r =? 200) then
          (Throw (ClientRequestError
                    (diagnostic r ++ " [Status: " ++ Z_toString (status r) ++ "]")
                    (status r)),
           [request; ReadText])
        else if truthy options && truthy (get options "no_response") then
          (Return VUndefined, [request])
        else (json r, [request; ReadJson])
    end.
Proof.
  unfold sendRequest, post. cbn -[String.append Z_toString].
  destruct (net _ _) as [r | e]; [| reflexivity].
  cbn -[String.append Z_toString].
  destruct (negb (status r =? 200)).
  - cbn -[String.append Z_toString]. unfold diagnostic.
    destruct (text r) as [[| a s] | e]; reflexivity.
  - destruct (truthy options); [destruct (truthy (get options "no_response")) |];
      cbn; destruct (json r); reflexivity.
Qed.

(** A call that awaits [sendRequest] and returns nothing. *)
Lemma run_await_sendRequest (this : ClientInstance) (net : transport)
    (url : string) (body : value) :
  run net (sendRequest this url body (object [("no_response", VBool true)])
             ≫= fun _ => Resolve VUndefined) =
    let request := Fetched (url_base this ++ url) (post this body) in
    match net (url_base this ++ url) (post this body) with
    | Throw e => (Throw e, [request])
    | Return r =>
        if negb (status r =? 200) then
          (Throw (ClientRequestError
                    (diagnostic r ++ " [Status: " ++ Z_toString (status r) ++ "]")
                    (status r)),
           [request; ReadText])
        else (Return VUndefined, [request])
    end.
Proof.
  rewrite run_bind, run_sendRequest. cbv zeta.
  destruct (net _ _) as [r | e]; [| reflexivity].
  destruct (negb (status r =? 200)); reflexivity.
Qed.

Lemma run_exchange (this : ClientInstance) (net : transport)
    (url : string) (body : value) :
  run net (sendRequest this url body (object [("no_response", VBool true)])
             ≫= fun _ => Resolve VUndefined) = exchange this net url body.
Proof. apply run_await_sendRequest. Qed.

Lemma run_then_undefined (net : transport) (p : async value) :
  (forall v, fst (run net p) = Return v -> v = VUndefined) ->
  run net (p ≫= fun _ => Resolve VUndefined) = run net p.
Proof.
  intros H. rewrite run_bind. destruct (run net p) as [[v | e] t]; [| reflexivity].
  simpl. rewrite app_nil_r. now rewrite (H v eq_refl).
Qed.

Lemma exchange_undefined (this : ClientInstance) (net : transport)
    (path : string) (body v : value) :
  fst (exchange this net path body) = Return v -> v = VUndefined.
Proof.
  unfold exchange. cbv zeta. destruct (net _ _) as [r | e]; [| discriminate].
  destruct (negb (status r =? 200)); simpl; congruence.
Qed.

(** *** The runs of the five methods *)

Lemma run_notify (this : ClientInstance) (net : transport)
    (message channel : value) (severity : string) :
  run net (notify this message channel severity) =
    match message with
    | VString "" => (Return VUndefined, [])
    | VString _ =>
        match validateChannel this channel with
        | Throw e => (Throw e, [])
        | Return channel =>
            exchange this net "notify"
              (object [("message", message); ("channel", channel);
                       ("severity", VString severity)])
        end
    | _ => (Throw (Error "Invalid message"), [])
    end.
Proof.
  unfold notify. destruct message as [| | b | n | s | o | l]; try reflexivity.
  destruct s as [| a s]; [reflexivity |].
  cbn [String.length Nat.eqb].
  destruct (validateChannel this channel) as [ch | e]; [| reflexivity].
  apply run_exchange.
Qed.

Lemma notify_undefined (this : ClientInstance) (net : transport)
    (message channel : value) (severity : string) (v : value) :
  fst (run net (notify this message channel severity)) = Return v -> v = VUndefined.
Proof.
  rewrite run_notify. destruct message as [| | b | n | s | o | l]; try discriminate.
  destruct s as [| a s]; [simpl; congruence |].
  destruct (validateChannel this channel) as [ch | e]; [| discriminate].
  apply exchange_undefined.
Qed.

Lemma run_error (this : ClientInstance) (net : transport) (message channel : value) :
  run net (error this message channel) = run net (notify this message channel "error").
Proof. apply run_then_undefined, notify_undefined. Qed.

Lemma run_warn (this : ClientInstance) (net : transport) (message channel : value) :
  run net (warn this message channel) = run net (notify this message channel "warn").
Proof. apply run_then_undefined, notify_undefined. Qed.

Lemma run_info (this : ClientInstance) (net : transport) (message channel : value) :
  run net (info this message channel) = run net (notify this message channel "info").
Proof. apply run_then_undefined, notify_undefined. Qed.

Lemma run_processWatch (this : ClientInstance) (net : transport)
    (pid name severity channel : value) :
  run net (processWatch this pid name severity channel) =
    if negb (integer_within 1 None (effective_pid pid)) then
      (Throw (Error "Invalid process id"), [])
    else
      match validateSeverity severity with
      | Throw e => (Throw e, [])
      | Return severity =>
          match validateChannel this channel with
          | Throw e => (Throw e, [])
          | Return channel =>
              exchange this net "process/watch"
                (object [("pid", effective_pid pid); ("name", effective_name name);
                         ("channel", channel); ("severity", severity)])
          end
      end.
Proof.
  unfold processWatch, effective_pid, effective_name.
  destruct (truthy pid); cbn [negb];
    [destruct pid as [| | b | n | s | o | l]; try reflexivity |].
  all: rewrite positive_test;
    match goal with |- context [integer_within 1 None ?p] =>
      destruct (integer_within 1 None p) end; [| reflexivity];
    cbn [negb].
  all: destruct (validateSeverity severity) as [sev | e]; [| reflexivity].
  all: destruct (validateChannel this channel) as [ch | e]; [| reflexivity].
  all: destruct (truthy name); apply run_exchange.
Qed.

Lemma run_processUnwatch (this : ClientInstance) (net : transport)
    (pid channel : value) :
  run net (processUnwatch this pid channel) =
    if negb (integer_within 1 None (effective_pid pid)) then
      (Throw (Error "Invalid process id"), [])
    else
      match validateChannel this channel with
      | Throw e => (Throw e, [])
      | Return channel =>
          exchange this net "process/unwatch"
            (object [("pid", effective_pid pid); ("channel", channel)])
      end.
Proof.
  unfold processUnwatch, effective_pid.
  destruct (truthy pid); cbn [negb];
    [destruct pid as [| | b | n | s | o | l]; try reflexivity |].
  all: rewrite positive_test;
    match goal with |- context [integer_within 1 None ?p] =>
      destruct (integer_within 1 None p) end; [| reflexivity];
    cbn [negb].
  all: destruct (validateChannel this channel) as [ch | e]; [| reflexivity].
  all: apply run_exchange.
Qed.

Lemma exchange_fetched (this : ClientInstance) (net : transport)
    (path : string) (body : value) (url : string) (init : RequestInit) :
  In (Fetched url init) (snd (exchange this net path body)) ->
  url = url_base this ++ path /\ init = post this body.
Proof.
  unfold exchange. cbv zeta.
  destruct (net _ _) as [r | e]; [destruct (negb (status r =? 200)) |]; simpl.
  all: intros H; repeat destruct H as [H | H]; try discriminate; try contradiction.
  all: injection H as <- <-; split; reflexivity.
Qed.

(** A call either ends before any request, or is one exchange on its path. *)
Lemma invoke_cases (this : ClientInstance) (net : transport) (c : call) :
  (exists c0, run net (invoke this c) = (c0, []))
  \/ (exists body, run net (invoke this c) = exchange this net (path_of c) body).
Proof.
  destruct c as [m ch | m ch | m ch | p nm sv ch | p ch]; simpl.
  1: rewrite run_error, run_notify.
  2: rewrite run_warn, run_notify.
  3: rewrite run_info, run_notify.
  4: rewrite run_processWatch.
  5: rewrite run_processUnwatch.
  1-3: destruct m as [| | ? | ? | s | ? | ?]; eauto; destruct s; eauto;
    destruct (validateChannel this ch); eauto.
  - destruct (negb _); eauto. destruct (validateSeverity sv); eauto.
    destruct (validateChannel this ch); eauto.
  - destruct (negb _); eauto. destruct (validateChannel this ch); eauto.
Qed.

(** ** Construction *)

Lemma first_failing_None (options : value) (c : check) :
  first_failing options = None -> passes c options = true.
Proof.
  intros H. unfold first_failing in H.
  assert (Hin : List.In c checks_in_order) by (destruct c; simpl; auto 10).
  pose proof (List.find_none _ _ H c Hin) as Hc. simpl in Hc.
  now destruct (passes c options).
Qed.

Lemma first_failing_Some (options : value) (c : check) :
  passes c options = false -> exists c', first_failing options = Some c'.
Proof.
  intros H. destruct (first_failing options) as [c' |] eqn:E; [eauto |].
  rewrite (first_failing_None _ c E) in H. discriminate.
Qed.

(** [create] stops at the first check of the contract that fails, with the
    message of that check, and otherwise builds the client from the checked
    and completed settings. *)
Lemma create_first_failing (options : value) :
  match first_failing options with
  | Some c => create options = Throw (Error (check_message c))
  | None =>
      exists h n k d,
        option_of options "host" = VString h
        /\ option_of options "port" = VNumber n
        /\ option_of options "apiKey" = VString k
        /\ option_of options "defaultChannel" = VString d
        /\ create options =
             Return (Client {| host := h; port := n; useSsl := useSsl_of options;
                               apiKey := k; defaultChannel := d;
                               timeout_ms := timeout_of options |})
  end.
Proof.
  unfold create, first_failing, checks_in_order, passes, useSsl_of, timeout_of.
  cbv zeta.
  change (prop (spread options)) with (option_of options).
  generalize (option_of options "host") as vh.
  generalize (option_of options "port") as vp.
  generalize (option_of options "useSsl") as vs.
  generalize (option_of options "apiKey") as vk.
  generalize (option_of options "defaultChannel") as vd.
  generalize (option_of options "timeout") as vt.
  intros vt vd vk vs vp vh.
  destruct ((typeof options =? "object")%string), (Array_isArray options);
    try reflexivity.
  cbn [negb orb andb List.find].
  destruct vh as [| | ? | ? | h | ? | ?]; try reflexivity.
  destruct h as [| a h]; [reflexivity |].
  destruct vp as [| | ? | n | ? | ? | ?]; try reflexivity.
  cbn [nonempty_string negb List.find String.length Nat.eqb mbind completion_bind].
  rewrite port_test.
  destruct (integer_within 1 (Some 65535) (VNumber n)); [| reflexivity].
  cbn [negb List.find].
  destruct vs as [| | b | m | ? | ? | ?]; try reflexivity.
  all: cbn [negb List.find].
  all: destruct vk as [| | ? | ? | k | ? | ?]; try reflexivity.
  all: destruct k as [| a' k]; [reflexivity |].
  all: destruct vd as [| | ? | ? | d | ? | ?]; try reflexivity.
  all: destruct d as [| a'' d]; [reflexivity |].
  all: cbn [nonempty_string negb List.find String.length Nat.eqb].
  all: destruct vt as [| | ? | t | ? | ? | ?]; try reflexivity.
  all: try (rewrite positive_test;
            destruct (integer_within 1 None (VNumber t)); [| reflexivity]).
  all: cbn [negb List.find]; do 4 eexists; repeat split.
  all: now rewrite ?negb_involutive.
Qed.

(** ** Arguments of the methods *)

Lemma get_object_cons (k : string) (v : value) (fields : list (string * value))
    (k' : string) :
  get (object ((k, v) :: fields)) k' =
    if (k =? k')%string then v else get (object fields) k'.
Proof.
  unfold get, object, prop. cbn [list_to_map foldr uncurry fst snd].
  destruct (String.eqb_spec k k') as [-> | Hne].
  - now rewrite lookup_insert_eq.
  - now rewrite lookup_insert_ne.
Qed.


Lemma validateChannel_Return (this : ClientInstance) (channel ch : value) :
  validateChannel this channel = Return ch ->
  ch = if truthy channel then channel else VString (default_channel this).
Proof.
  unfold validateChannel.
  destruct (truthy channel && negb (typeof channel =? "string")%string);
    [discriminate | congruence].
Qed.

Lemma validateChannel_Throw (this : ClientInstance) (channel : value) (e : exception) :
  validateChannel this channel = Throw e <->
  truthy channel = true /\ typeof channel <> "string" /\ e = Error "Invalid channel".
Proof.
  unfold validateChannel.
  destruct (truthy channel); cbn [andb];
    [| split; [discriminate | intros [? _]; discriminate]].
  destruct channel; simpl; split; intros H; try discriminate.
  all: try (injection H as <-; repeat split; discriminate).
  all: try (destruct H as (_ & _ & ->); reflexivity).
  destruct H as (_ & H & _). now contradiction H.
Qed.

Lemma validateSeverity_falsy (severity : value) :
  truthy severity = false -> validateSeverity severity = Return (VString "error").
Proof. unfold validateSeverity. now intros ->. Qed.

Lemma validateSeverity_Return (severity sv : value) :
  validateSeverity severity = Return sv ->
  sv = (if truthy severity then severity else VString "error") /\ is_severity sv.
Proof.
  unfold validateSeverity, is_severity.
  destruct (truthy severity); cbn [negb]; [| intros [= <-]; auto].
  destruct severity as [| | ? | ? | s | ? | ?]; try discriminate.
  destruct (String.eqb_spec s "error") as [-> | _]; [intros [= <-]; auto |].
  destruct (String.eqb_spec s "warn") as [-> | _]; [intros [= <-]; auto |].
  destruct (String.eqb_spec s "info") as [-> | _]; [intros [= <-]; auto |].
  discriminate.
Qed.

Lemma validateSeverity_Throw (severity : value) (e : exception) :
  validateSeverity severity = Throw e <->
  truthy severity = true /\ ~ is_severity severity /\ e = Error "Invalid severity".
Proof.
  unfold validateSeverity, is_severity.
  destruct (truthy severity) eqn:Ht; cbn [negb];
    [| split; [discriminate | intros [? _]; discriminate]].
  destruct severity as [| | ? | ? | s | ? | ?].
  1-4, 6-7: split; [intros [= <-]; repeat split; try reflexivity;
                      intros [H | [H | H]]; discriminate
                   | intros (_ & _ & ->); reflexivity].
  destruct (String.eqb_spec s "error") as [-> | H1]; cbn [negb andb].
  { split; [discriminate | intros (_ & H & _); contradiction H; auto]. }
  destruct (String.eqb_spec s "warn") as [-> | H2]; cbn [negb andb].
  { split; [discriminate | intros (_ & H & _); contradiction H; auto]. }
  destruct (String.eqb_spec s "info") as [-> | H3]; cbn [negb andb].
  { split; [discriminate | intros (_ & H & _); contradiction H; auto]. }
  split; [| intros (_ & _ & ->); reflexivity].
  intros [= <-]. repeat split; try reflexivity.
  intros [H | [H | H]]; injection H; congruence.
Qed.

Lemma processWatch_falsy_pid (this : ClientInstance) (pid name severity channel : value) :
  truthy pid = false ->
  processWatch this pid name severity channel =
    processWatch this (VNumber process_pid) name severity channel.
Proof.
  intros H. unfold processWatch. rewrite H. cbn [negb].
  now destruct (truthy (VNumber process_pid)).
Qed.

Lemma processUnwatch_falsy_pid (this : ClientInstance) (pid channel : value) :
  truthy pid = false ->
  processUnwatch this pid channel = processUnwatch this (VNumber process_pid) channel.
Proof.
  intros H. unfold processUnwatch. rewrite H. cbn [negb].
  now destruct (truthy (VNumber process_pid)).
Qed.

Lemma processWatch_same_severity (this : ClientInstance)
    (pid name severity severity' channel : value) :
  validateSeverity severity = validateSeverity severity' ->
  processWatch this pid name severity channel =
    processWatch this pid name severity' channel.
Proof. intros H. unfold processWatch. now rewrite H. Qed.


(** What the request of a call carries, when the call sends one. *)
Lemma invoke_request (this : ClientInstance) (net : transport) (c : call)
    (url : string) (init : RequestInit) :
  In (Fetched url init) (trace net (invoke this c)) ->
  url = url_base this ++ path_of c
  /\ exists body,
       init = post this body
       /\ get body "channel" =
            (if truthy (channel_of c) then channel_of c
             else VString (default_channel this))
       /\ match c with
          | call_error m _ =>
              get body "message" = m /\ get body "severity" = VString "error"
          | call_warn m _ =>
              get body "message" = m /\ get body "severity" = VString "warn"
          | call_info m _ =>
              get body "message" = m /\ get body "severity" = VString "info"
          | call_processWatch pid name severity _ =>
              get body "pid" = effective_pid pid
              /\ integer_within 1 None (effective_pid pid) = true
              /\ get body "name" = effective_name name
              /\ get body "severity" =
                   (if truthy severity then severity else VString "error")
              /\ is_severity (get body "severity")
          | call_processUnwatch pid _ =>
              get body "pid" = effective_pid pid
              /\ integer_within 1 None (effective_pid pid) = true
          end.
Proof.
  unfold trace.
  destruct c as [m ch | m ch | m ch | p nm sv ch | p ch]; cbn [invoke path_of channel_of].
  1: rewrite run_error, run_notify.
  2: rewrite run_warn, run_notify.
  3: rewrite run_info, run_notify.
  4: rewrite run_processWatch.
  5: rewrite run_processUnwatch.
  1-3: destruct m as [| | ? | ? | s | ? | ?]; try (intros []);
    destruct s as [| a s]; try (intros []);
    destruct (validateChannel this ch) as [ch' | e] eqn:Hch; try (intros []);
    apply validateChannel_Return in Hch; intros Hin;
    apply exchange_fetched in Hin; destruct Hin as [-> ->];
    (split; [reflexivity |]); eexists; (split; [reflexivity |]);
    rewrite !get_object_cons; cbn; repeat split; assumption || reflexivity.
  - destruct (integer_within 1 None (effective_pid p)) eqn:Hp; cbn [negb];
      [| intros []].
    destruct (validateSeverity sv) as [sv' | e] eqn:Hsv; [| intros []].
    destruct (validateChannel this ch) as [ch' | e] eqn:Hch; [| intros []].
    apply validateChannel_Return in Hch.
    apply validateSeverity_Return in Hsv. destruct Hsv as [Hsv Hsev].
    intros Hin. apply exchange_fetched in Hin. destruct Hin as [-> ->].
    split; [reflexivity |]. eexists. split; [reflexivity |].
    rewrite !get_object_cons. cbn. rewrite <- Hsv.
    repeat split; assumption || reflexivity.
  - destruct (integer_within 1 None (effective_pid p)) eqn:Hp; cbn [negb];
      [| intros []].
    destruct (validateChannel this ch) as [ch' | e] eqn:Hch; [| intros []].
    apply validateChannel_Return in Hch.
    intros Hin. apply exchange_fetched in Hin. destruct Hin as [-> ->].
    split; [reflexivity |]. eexists. split; [reflexivity |].
    rewrite !get_object_cons. cbn. repeat split; assumption || reflexivity.
Qed.

(** *** Arguments that pass *)

Lemma validateChannel_ok (this : ClientInstance) (channel : value) :
  channel_ok channel <->
  validateChannel this channel =
    Return (if truthy channel then channel else VString (default_channel this)).
Proof.
  unfold channel_ok, validateChannel.
  destruct (truthy channel); cbn [andb].
  - destruct channel; cbn; split; intros H; try discriminate; auto.
    all: destruct H as [H | H]; discriminate.
  - split; auto.
Qed.

Lemma validateSeverity_ok (severity : value) :
  severity_ok severity <->
  validateSeverity severity =
    Return (if truthy severity then severity else VString "error").
Proof.
  unfold severity_ok. split.
  - intros H. destruct (validateSeverity severity) as [sv | e] eqn:E.
    + apply validateSeverity_Return in E. now destruct E as [-> _].
    + apply validateSeverity_Throw in E. destruct E as (Ht & Hn & _).
      destruct H as [H | H]; [congruence | contradiction].
  - intros H. destruct (truthy severity) eqn:Ht; [right | now left].
    apply validateSeverity_Return in H. rewrite Ht in H. now destruct H.
Qed.

Lemma exchange_sends (this : ClientInstance) (net : transport)
    (path : string) (body : value) :
  snd (exchange this net path body)
  = Fetched (url_base this ++ path) (post this body)
      :: reads_after (net (url_base this ++ path) (post this body)).
Proof.
  unfold exchange, reads_after. cbv zeta.
  destruct (net _ _) as [r | e]; [| reflexivity].
  destruct (status r =? 200); reflexivity.
Qed.

Lemma not_channel_ok (this : ClientInstance) (channel : value) :
  ~ channel_ok channel ->
  validateChannel this channel = Throw (Error "Invalid channel").
Proof.
  intros H. apply validateChannel_Throw. unfold channel_ok in H.
  destruct (truthy channel); [| contradiction H; now left].
  repeat split. intros Hty. apply H. now right.
Qed.

Lemma not_severity_ok (severity : value) :
  ~ severity_ok severity ->
  validateSeverity severity = Throw (Error "Invalid severity").
Proof.
  intros H. apply validateSeverity_Throw. unfold severity_ok in H.
  destruct (truthy severity); [| contradiction H; now left].
  repeat split. intros Hs. apply H. now right.
Qed.

(** With a pid, a severity and a channel that pass, [processWatch] is the
    exchange of its body on "process/watch". *)
Lemma processWatch_sends (this : ClientInstance) (net : transport)
    (pid name severity channel : value) :
  integer_within 1 None (effective_pid pid) = true ->
  severity_ok severity ->
  channel_ok channel ->
  run net (processWatch this pid name severity channel)
  = exchange this net "process/watch"
      (object [("pid", effective_pid pid); ("name", effective_name name);
               ("channel", if truthy channel then channel
                           else VString (default_channel this));
               ("severity", if truthy severity then severity else VString "error")]).
Proof.
  intros Hp Hs Hc. rewrite run_processWatch, Hp. cbn [negb].
  apply validateSeverity_ok in Hs. apply (validateChannel_ok this) in Hc.
  now rewrite Hs, Hc.
Qed.

Lemma processUnwatch_sends (this : ClientInstance) (net : transport)
    (pid channel : value) :
  integer_within 1 None (effective_pid pid) = true ->
  channel_ok channel ->
  run net (processUnwatch this pid channel)
  = exchange this net "process/unwatch"
      (object [("pid", effective_pid pid);
               ("channel", if truthy channel then channel
                           else VString (default_channel this))]).
Proof.
  intros Hp Hc. rewrite run_processUnwatch, Hp. cbn [negb].
  apply (validateChannel_ok this) in Hc. now rewrite Hc.
Qed.

(** C3.  [create] applies the checks of the construction contract in their
    order (options is a non-array object; host, port in [1, 65535], useSsl,
    apiKey, defaultChannel, timeout) and throws an [Error] with the message of
    the first one that fails; when none fails it builds the client, with
    [useSsl] false when absent and the truthiness of a number, and [timeout]
    30000 when absent.  In particular construction fails for a missing or
    empty host, port 0, port 65536, a non-integer port, an empty apiKey, an
    empty defaultChannel, a non-positive timeout and a non-integer timeout.
    ([null] has [typeof] "object": it passes the first check and fails the
    host check.) *)
Theorem create_checks_in_order (options : value) :
  match first_failing options with
  | Some c => create options = Throw (Error (check_message c))
  | None =>
      exists h n k d,
        option_of options "host" = VString h
        /\ option_of options "port" = VNumber n
        /\ option_of options "apiKey" = VString k
        /\ option_of options "defaultChannel" = VString d
        /\ create options =
             Return (Client {| host := h; port := n; useSsl := useSsl_of options;
                               apiKey := k; defaultChannel := d;
                               timeout_ms := timeout_of options |})
  end
  /\ (listed_failure options -> exists m, create options = Throw (Error m)).
Proof.
  split; [apply create_first_failing |].
  intros H.
  assert (Hfail : exists c, passes c options = false).
  { destruct H as [H | [H | [(n & H & Hn) | [H | [H | (n & H & Hn)]]]]].
    - exists check_host. simpl. now rewrite H.
    - exists check_host. simpl. now rewrite H.
    - exists check_port. simpl. rewrite H. unfold integer_within.
      destruct Hn as [-> | [-> | ->]]; reflexivity.
    - exists check_apiKey. simpl. now rewrite H.
    - exists check_defaultChannel. simpl. now rewrite H.
    - exists check_timeout. simpl. rewrite H. unfold integer_within.
      destruct Hn as [(z & -> & Hz) | ->]; [| reflexivity].
      destruct (Z.leb_spec 1 z); [lia | reflexivity]. }
  destruct Hfail as [c Hc]. destruct (first_failing_Some _ _ Hc) as [c' Hc'].
  pose proof (create_first_failing options) as Hcreate. rewrite Hc' in Hcreate.
  eauto.
Qed.

(** C4.  For every options object [create] accepts, the base URL of the
    client is "http", an "s" when useSsl holds, "://", the host, ":", the
    decimal numeral of the port and "/"; every request of every method is
    sent to that base URL followed by the path of the method. *)
Theorem create_url_base (options : value) (client : ClientInstance) :
  create options = Return client ->
  (exists h n p,
      option_of options "host" = VString h
      /\ option_of options "port" = VNumber n
      /\ Number.to_Z n = Some p /\ 1 <= p <= 65535
      /\ url_base client =
           "http" ++ (if useSsl_of options then "s" else "") ++ "://" ++ h ++ ":"
             ++ Z_toString p ++ "/")
  /\ (forall net c url init,
        In (Fetched url init) (trace net (invoke client c)) ->
        url = url_base client ++ path_of c).
Proof.
  intros Hcreate. split.
  - pose proof (create_first_failing options) as H.
    destruct (first_failing options) as [c |] eqn:Hff; [congruence |].
    destruct H as (h & n & k & d & Hh & Hn & _ & _ & Hc).
    rewrite Hc in Hcreate. injection Hcreate as <-.
    pose proof (first_failing_None _ check_port Hff) as Hp.
    simpl in Hp. rewrite Hn in Hp. unfold integer_within in Hp.
    destruct (Number.to_Z n) as [p |] eqn:Hz; [| discriminate].
    apply andb_prop in Hp. destruct Hp as [Hlo Hhi].
    apply Z.leb_le in Hlo. apply Z.leb_le in Hhi.
    exists h, n, p. repeat split; try assumption.
    unfold Client. cbn [url_base host port useSsl].
    rewrite (Number_toString_integer n p Hz); [reflexivity |].
    apply Z.abs_le. lia.
  - intros net c url init Hin.
    destruct (invoke_cases client net c) as [(c0 & Hrun) | (body & Hrun)];
      unfold trace in Hin; rewrite Hrun in Hin.
    + destruct Hin.
    + now apply exchange_fetched in Hin.
Qed.

(** C9.  [getDefaultChannel] returns the defaultChannel string given to
    [create]: it is a value of the client, read without any effect, the same
    at every call. *)
Theorem getDefaultChannel_is_configured (options : value) (client : ClientInstance) :
  create options = Return client ->
  exists d, option_of options "defaultChannel" = VString d
            /\ getDefaultChannel client = d.
Proof.
  intros Hcreate. pose proof (create_first_failing options) as H.
  destruct (first_failing options) as [c |]; [congruence |].
  destruct H as (h & n & k & d & _ & _ & _ & Hd & Hc).
  rewrite Hc in Hcreate. injection Hcreate as <-.
  exists d. split; [assumption | reflexivity].
Qed.

(** ** The methods *)

(** C1.  Whenever the POST of a public operation completes with a status
    other than 200, the operation fails with a [ClientRequestError] whose
    message is a detail followed by " [Status: <code>]" and whose status
    code is the status of the response; the detail is the text of the
    response body, or "Unsuccessful response from node." when the text
    cannot be read or is empty. *)
Theorem non_200_raises_ClientRequestError (this : ClientInstance) (net : transport)
    (c : call) (url : string) (init : RequestInit) (r : Response) :
  In (Fetched url init) (trace net (invoke this c)) ->
  net url init = Return r ->
  status r <> 200 ->
  exists detail,
    outcome net (invoke this c) =
      Throw (ClientRequestError
               (detail ++ " [Status: " ++ Z_toString (status r) ++ "]") (status r))
    /\ (forall s, text r = Return s -> s <> "" -> detail = s)
    /\ (text r = Return "" \/ (exists e, text r = Throw e) ->
        detail = "Unsuccessful response from node.").
Proof.
  intros Hin Hnet Hstatus. unfold trace, outcome in *.
  destruct (invoke_cases this net c) as [(c0 & Hrun) | (body & Hrun)];
    rewrite Hrun in *; [destruct Hin |].
  apply exchange_fetched in Hin. destruct Hin as [-> ->].
  exists (diagnostic r). unfold exchange. cbv zeta. rewrite Hnet.
  destruct (Z.eqb_spec (status r) 200) as [H200 | _]; [contradiction |].
  cbn [negb fst]. split; [reflexivity |]. unfold diagnostic. split.
  - intros s -> Hs. destruct s; [contradiction | reflexivity].
  - intros [-> | [e ->]]; reflexivity.
Qed.

(** C2.  For each of [error], [warn] and [info]: a message that is not a
    string makes the call fail with the [Error] "Invalid message" and no
    network event, and the empty string makes the call resolve with no value
    and no network event. *)
Theorem notification_message_contract (this : ClientInstance) (net : transport)
    (op : ClientInstance -> value -> value -> async value)
    (message channel : value) :
  In op [error; warn; info] ->
  (typeof message <> "string" ->
   run net (op this message channel) = (Throw (Error "Invalid message"), []))
  /\ (message = VString "" ->
      run net (op this message channel) = (Return VUndefined, [])).
Proof.
  intros Hop.
  assert (Hrun : exists severity,
             run net (op this message channel)
             = run net (notify this message channel severity)).
  { destruct Hop as [<- | [<- | [<- | []]]]; eexists;
      [apply run_error | apply run_warn | apply run_info]. }
  destruct Hrun as [severity ->]. rewrite run_notify. split.
  - intros Hty. destruct message; try reflexivity. now contradiction Hty.
  - intros ->. reflexivity.
Qed.

(** C5.  [processWatch] and [processUnwatch] replace a falsy pid by
    [process.pid]; when the pid they then hold is not a number that is an
    integer of at least 1 they fail with the [Error] "Invalid process id" and
    no network event; a request they send carries the pid they hold.  When
    the pid they hold is an integer of at least 1 and the other arguments
    pass, the request does go out with that pid: for [processUnwatch]
    whenever the channel passes, for [processWatch] whenever the severity and
    the channel pass and the name is a string or falsy. *)
Theorem pid_defaulting_and_validation (this : ClientInstance) (net : transport)
    (pid name severity channel : value) :
  (truthy pid = false ->
   processWatch this pid name severity channel =
     processWatch this (VNumber process_pid) name severity channel
   /\ processUnwatch this pid channel =
        processUnwatch this (VNumber process_pid) channel)
  /\ (integer_within 1 None (effective_pid pid) = false ->
      run net (processWatch this pid name severity channel) =
        (Throw (Error "Invalid process id"), [])
      /\ run net (processUnwatch this pid channel) =
           (Throw (Error "Invalid process id"), []))
  /\ (forall url init,
        In (Fetched url init) (trace net (processWatch this pid name severity channel))
        \/ In (Fetched url init) (trace net (processUnwatch this pid channel)) ->
        exists body, init = post this body /\ get body "pid" = effective_pid pid)
  /\ (integer_within 1 None (effective_pid pid) = true ->
      (severity_ok severity -> channel_ok channel -> name_ok name ->
       exists rest,
         trace net (processWatch this pid name severity channel)
         = Fetched (url_base this ++ "process/watch")
             (post this
                (object [("pid", effective_pid pid); ("name", effective_name name);
                         ("channel", if truthy channel then channel
                                     else VString (default_channel this));
                         ("severity", if truthy severity then severity
                                      else VString "error")]))
             :: rest)
      /\ (channel_ok channel ->
          exists rest,
            trace net (processUnwatch this pid channel)
            = Fetched (url_base this ++ "process/unwatch")
                (post this
                   (object [("pid", effective_pid pid);
                            ("channel", if truthy channel then channel
                                        else VString (default_channel this))]))
                :: rest)).
Proof.
  split; [| split; [| split]].
  - intros H. split; [now apply processWatch_falsy_pid
                     | now apply processUnwatch_falsy_pid].
  - intros H. rewrite run_processWatch, run_processUnwatch, H. split; reflexivity.
  - intros url init [Hin | Hin].
    + apply (invoke_request this net (call_processWatch pid name severity channel))
        in Hin.
      destruct Hin as (_ & body & Hinit & _ & Hpid & _). eauto.
    + apply (invoke_request this net (call_processUnwatch pid channel)) in Hin.
      destruct Hin as (_ & body & Hinit & _ & Hpid & _). eauto.
  - intros Hp. unfold trace. split.
    + intros Hs Hc _. rewrite (processWatch_sends this net _ name _ _ Hp Hs Hc).
      rewrite exchange_sends. eauto.
    + intros Hc. rewrite (processUnwatch_sends this net _ _ Hp Hc).
      rewrite exchange_sends. eauto.
Qed.

(** C6, as amended.  In [processWatch] a severity that is omitted or falsy
    stands for "error"; a truthy severity must be exactly "error", "warn" or
    "info", and any other truthy value makes the call fail with an [Error]
    and no network event, the [Error] "Invalid severity" when the pid
    passes; a request that is sent carries the severity so obtained.
    [validateSeverity] returns "error" for a falsy value and each of the
    three for itself, and with such a severity, a pid and a channel that pass
    and a name that is a string or falsy, the request does go out with that
    severity. *)
Theorem severity_defaulting_and_validation (this : ClientInstance) (net : transport)
    (pid name severity channel : value) :
  (truthy severity = false ->
   processWatch this pid name severity channel =
     processWatch this pid name (VString "error") channel)
  /\ (truthy severity = true -> ~ is_severity severity ->
      exists m, run net (processWatch this pid name severity channel) =
                  (Throw (Error m), []))
  /\ (forall url init,
        In (Fetched url init) (trace net (processWatch this pid name severity channel)) ->
        exists body,
          init = post this body
          /\ get body "severity" = (if truthy severity then severity else VString "error")
          /\ is_severity (get body "severity"))
  /\ (truthy severity = false -> validateSeverity severity = Return (VString "error"))
  /\ (is_severity severity -> validateSeverity severity = Return severity)
  /\ (truthy severity = true -> ~ is_severity severity ->
      integer_within 1 None (effective_pid pid) = true ->
      run net (processWatch this pid name severity channel)
      = (Throw (Error "Invalid severity"), []))
  /\ (severity_ok severity ->
      integer_within 1 None (effective_pid pid) = true ->
      channel_ok channel -> name_ok name ->
      exists rest,
        trace net (processWatch this pid name severity channel)
        = Fetched (url_base this ++ "process/watch")
            (post this
               (object [("pid", effective_pid pid); ("name", effective_name name);
                        ("channel", if truthy channel then channel
                                    else VString (default_channel this));
                        ("severity", if truthy severity then severity
                                     else VString "error")]))
            :: rest).
Proof.
  split; [| split; [| split; [| split; [| split; [| split]]]]].
  - intros H. apply processWatch_same_severity. now rewrite validateSeverity_falsy.
  - intros Ht Hsev. rewrite run_processWatch.
    destruct (negb _); [eauto |].
    replace (validateSeverity severity) with (@Throw value (Error "Invalid severity"));
      [eauto |].
    symmetry. apply validateSeverity_Throw. auto.
  - intros url init Hin.
    apply (invoke_request this net (call_processWatch pid name severity channel)) in Hin.
    destruct Hin as (_ & body & Hinit & _ & _ & _ & _ & Hsev & His). eauto.
  - apply validateSeverity_falsy.
  - intros [-> | [-> | ->]]; reflexivity.
  - intros Ht Hsev Hp. rewrite run_processWatch, Hp. cbn [negb].
    replace (validateSeverity severity) with (@Throw value (Error "Invalid severity"));
      [reflexivity |].
    symmetry. apply validateSeverity_Throw. auto.
  - intros Hs Hp Hc _. unfold trace.
    rewrite (processWatch_sends this net _ name _ _ Hp Hs Hc), exchange_sends. eauto.
Qed.

(** C7, as amended.  A request a public operation sends carries the channel
    argument when it is truthy and the default channel when it is omitted or
    falsy.  A truthy channel that is not a string lets no request out: the
    call fails with an [Error], except that a notification with the empty
    message resolves as the no-op it is, its channel never looked at.
    [error("msg")] without a channel sends to "notify" the message "msg" on
    the default channel with severity "error". *)
Theorem channel_defaulting_and_validation (this : ClientInstance) (net : transport)
    (c : call) :
  (forall url init,
     In (Fetched url init) (trace net (invoke this c)) ->
     exists body,
       init = post this body
       /\ get body "channel" =
            (if truthy (channel_of c) then channel_of c
             else VString (default_channel this)))
  /\ (truthy (channel_of c) = true -> typeof (channel_of c) <> "string" ->
      trace net (invoke this c) = []
      /\ if empty_notification c then outcome net (invoke this c) = Return VUndefined
         else exists m, outcome net (invoke this c) = Throw (Error m))
  /\ (exists rest,
        trace net (error this (VString "msg") VUndefined) =
          Fetched (url_base this ++ "notify")
            (post this (object [("message", VString "msg");
                                ("channel", VString (default_channel this));
                                ("severity", VString "error")]))
          :: rest).
Proof.
  split; [| split].
  - intros url init Hin. apply invoke_request in Hin.
    destruct Hin as (_ & body & Hinit & Hch & _). eauto.
  - intros Ht Hty.
    assert (Hch : validateChannel this (channel_of c) = Throw (Error "Invalid channel"))
      by (apply validateChannel_Throw; auto).
    unfold trace, outcome.
    destruct c as [m ch | m ch | m ch | p nm sv ch | p ch];
      cbn [invoke channel_of empty_notification] in *.
    1: rewrite run_error, run_notify.
    2: rewrite run_warn, run_notify.
    3: rewrite run_info, run_notify.
    4: rewrite run_processWatch.
    5: rewrite run_processUnwatch.
    1-3: destruct m as [| | ? | ? | s | ? | ?]; cbn [fst snd]; eauto;
      destruct s as [| a s]; cbn [fst snd]; eauto; rewrite Hch; cbn [fst snd]; eauto.
    + destruct (negb _); cbn [fst snd]; eauto.
      destruct (validateSeverity sv) as [sv' | e] eqn:Hsv; cbn [fst snd].
      * rewrite Hch. cbn [fst snd]. eauto.
      * apply validateSeverity_Throw in Hsv. destruct Hsv as (_ & _ & ->). eauto.
    + destruct (negb _); cbn [fst snd]; eauto. rewrite Hch. cbn [fst snd]. eauto.
  - unfold trace. rewrite run_error, run_notify.
    cbn [validateChannel truthy andb]. unfold exchange. cbv zeta.
    destruct (net _ _) as [r | e]; [destruct (negb (status r =? 200)) |];
      cbn [snd]; eauto.
Qed.

(** C8.  When the response to [sendRequest] has status 200: with a truthy
    [no_response] option the call resolves with no value and the body is not
    read at all; otherwise the body is parsed as JSON and the call settles as
    the parse does, returning the parsed value. *)
Theorem sendRequest_on_200 (this : ClientInstance) (net : transport)
    (url : string) (body options : value) (r : Response) :
  net (url_base this ++ url) (post this body) = Return r ->
  status r = 200 ->
  (truthy options && truthy (get options "no_response") = true ->
   run net (sendRequest this url body options) =
     (Return VUndefined, [Fetched (url_base this ++ url) (post this body)]))
  /\ (truthy options && truthy (get options "no_response") = false ->
      run net (sendRequest this url body options) =
        (json r, [Fetched (url_base this ++ url) (post this body); ReadJson])).
Proof.
  intros Hnet H200. rewrite run_sendRequest. cbv zeta. rewrite Hnet, H200.
  cbn [Z.eqb Pos.eqb negb]. split; intros ->; reflexivity.
Qed.


(** ** More about construction *)

(** [create] is a function of the checks and of the settings read. *)
Lemma create_congruence (o1 o2 : value) :
  (forall c, passes c o1 = passes c o2) ->
  option_of o1 "host" = option_of o2 "host" ->
  option_of o1 "port" = option_of o2 "port" ->
  option_of o1 "apiKey" = option_of o2 "apiKey" ->
  option_of o1 "defaultChannel" = option_of o2 "defaultChannel" ->
  useSsl_of o1 = useSsl_of o2 ->
  timeout_of o1 = timeout_of o2 ->
  create o1 = create o2.
Proof.
  intros Hp Hh Hn Hk Hd Hs Ht.
  assert (Hff : first_failing o1 = first_failing o2).
  { unfold first_failing, checks_in_order. cbn [List.find]. now rewrite !Hp. }
  pose proof (create_first_failing o1) as H1.
  pose proof (create_first_failing o2) as H2.
  rewrite Hff in H1. destruct (first_failing o2) as [c |]; [congruence |].
  destruct H1 as (h1 & n1 & k1 & d1 & Hh1 & Hn1 & Hk1 & Hd1 & ->).
  destruct H2 as (h2 & n2 & k2 & d2 & Hh2 & Hn2 & Hk2 & Hd2 & ->).
  congruence.
Qed.

Lemma option_of_insert_ne (o : gmap string value) (k k' : string) (v : value) :
  k <> k' -> option_of (VObject (<[k := v]> o)) k' = option_of (VObject o) k'.
Proof. intros H. unfold option_of, spread, prop. now rewrite lookup_insert_ne. Qed.

Lemma option_of_insert (o : gmap string value) (k : string) (v : value) :
  option_of (VObject (<[k := v]> o)) k = v.
Proof. unfold option_of, spread, prop. now rewrite lookup_insert_eq. Qed.

Lemma option_of_delete_ne (o : gmap string value) (k k' : string) :
  k <> k' -> option_of (VObject (delete k o)) k' = option_of (VObject o) k'.
Proof. intros H. unfold option_of, spread, prop. now rewrite lookup_delete_ne. Qed.

Lemma option_of_delete (o : gmap string value) (k : string) :
  option_of (VObject (delete k o)) k = VUndefined.
Proof. unfold option_of, spread, prop. now rewrite lookup_delete_eq. Qed.

(** Two objects that agree on the six properties are the same to [create]. *)
Lemma create_agree (o1 o2 : gmap string value) :
  (forall k, In k option_names ->
             option_of (VObject o1) k = option_of (VObject o2) k) ->
  create (VObject o1) = create (VObject o2).
Proof.
  intros H.
  assert (Hh := H "host" ltac:(simpl; auto 10)).
  assert (Hn := H "port" ltac:(simpl; auto 10)).
  assert (Hs := H "useSsl" ltac:(simpl; auto 10)).
  assert (Hk := H "apiKey" ltac:(simpl; auto 10)).
  assert (Hd := H "defaultChannel" ltac:(simpl; auto 10)).
  assert (Ht := H "timeout" ltac:(simpl; auto 10)).
  apply create_congruence; try assumption.
  - intros c. destruct c; cbn [passes typeof Array_isArray];
      now rewrite ?Hh, ?Hn, ?Hs, ?Hk, ?Hd, ?Ht.
  - unfold useSsl_of. now rewrite Hs.
  - unfold timeout_of. now rewrite Ht.
Qed.

(** X1.  [create] reads six properties of the options object and nothing
    else: setting or removing any other property leaves its result as it
    was. *)
Theorem create_ignores_other_properties (o : gmap string value) (k : string)
    (v : value) :
  ~ In k option_names ->
  create (VObject (<[k := v]> o)) = create (VObject o)
  /\ create (VObject (delete k o)) = create (VObject o).
Proof.
  intros Hk. split; apply create_agree; intros k' Hk'.
  - apply option_of_insert_ne. intros ->. contradiction.
  - apply option_of_delete_ne. intros ->. contradiction.
Qed.

(** X2.  The defaults of [create] are the same as the values they stand
    for: no [useSsl] is [useSsl: false], a number for [useSsl] is its
    truthiness, and no [timeout] is [timeout: 30000]. *)
Theorem create_defaults_are_explicit_values (o : gmap string value) :
  create (VObject (delete "useSsl" o)) = create (VObject (<["useSsl" := VBool false]> o))
  /\ (forall n, create (VObject (<["useSsl" := VNumber n]> o))
                = create (VObject (<["useSsl" := VBool (Number.truthy n)]> o)))
  /\ create (VObject (delete "timeout" o))
     = create (VObject (<["timeout" := VNumber (Number.of_Z 30000)]> o)).
Proof.
  split; [| split; [intros n |]]; apply create_congruence.
  all: try (intros c; destruct c; cbn [passes typeof Array_isArray]).
  all: unfold useSsl_of, timeout_of.
  all: rewrite ?option_of_insert, ?option_of_delete.
  all: rewrite ?option_of_insert_ne, ?option_of_delete_ne by discriminate.
  all: reflexivity.
Qed.

Lemma create_Return_invariants (options : value) (client : ClientInstance) :
  create options = Return client ->
  api_key client <> ""
  /\ default_channel client <> ""
  /\ integer_within 1 None (VNumber (client_timeout client)) = true.
Proof.
  intros Hcreate. pose proof (create_first_failing options) as H.
  destruct (first_failing options) as [c |] eqn:Hff; [congruence |].
  destruct H as (h & n & k & d & _ & _ & Hk & Hd & Hc).
  rewrite Hc in Hcreate. injection Hcreate as <-.
  pose proof (first_failing_None _ check_apiKey Hff) as Pk.
  pose proof (first_failing_None _ check_defaultChannel Hff) as Pd.
  pose proof (first_failing_None _ check_timeout Hff) as Pt.
  cbn [passes] in Pk, Pd, Pt. rewrite Hk in Pk. rewrite Hd in Pd.
  cbn [Client api_key default_channel client_timeout apiKey defaultChannel timeout_ms].
  split; [| split].
  - intros ->. discriminate.
  - intros ->. discriminate.
  - unfold timeout_of.
    destruct (option_of options "timeout"); try discriminate; [reflexivity | exact Pt].
Qed.

(** X3.  A client that [create] returns has a non-empty API key, a non-empty
    default channel and a timeout that is an integer of at least 1. *)
Theorem created_client_invariants (options : value) (client : ClientInstance) :
  create options = Return client ->
  api_key client <> ""
  /\ default_channel client <> ""
  /\ integer_within 1 None (VNumber (client_timeout client)) = true.
Proof. apply create_Return_invariants. Qed.

(** ** More about the methods *)

(** A call sends its request only when its arguments are well formed, and
    does send it when they are and its name is a string or falsy. *)
Lemma sends_well_formed (this : ClientInstance) (net : transport) (c : call) :
  ((exists url init, In (Fetched url init) (trace net (invoke this c)))
   -> well_formed c)
  /\ (well_formed c -> names_ok c ->
      exists url init, In (Fetched url init) (trace net (invoke this c))).
Proof.
  assert (H : (exists url init, In (Fetched url init) (trace net (invoke this c)))
              <-> well_formed c).
  {
    unfold trace.
    destruct c as [m ch | m ch | m ch | p nm sv ch | p ch];
      cbn [invoke well_formed].
    1: rewrite run_error, run_notify.
    2: rewrite run_warn, run_notify.
    3: rewrite run_info, run_notify.
    4: rewrite run_processWatch.
    5: rewrite run_processUnwatch.
    1-3: unfold message_ok; rewrite (validateChannel_ok this ch);
      destruct m as [| | ? | ? | s | ? | ?];
      try (split; [intros (? & ? & []) | intros [(? & ? & _) _]; discriminate]);
      destruct s as [| a s];
      [split; [intros (? & ? & []) | intros [(? & [= <-] & Hs) _]; now contradiction Hs] |];
      destruct (validateChannel this ch) as [ch' | e] eqn:Hch;
      [| split; [intros (? & ? & []) | intros [_ H]; discriminate]];
      (split; [intros _ | intros _; rewrite exchange_sends; do 2 eexists; left; reflexivity]);
      (split; [eexists; split; [reflexivity | discriminate] |]);
      f_equal; eapply validateChannel_Return; eassumption.
    - rewrite (validateSeverity_ok sv), (validateChannel_ok this ch).
      destruct (integer_within 1 None (effective_pid p)); cbn [negb];
        [| split; [intros (? & ? & []) | intros [? _]; discriminate]].
      destruct (validateSeverity sv) as [sv' | e] eqn:Hsv;
        [| split; [intros (? & ? & []) | intros (_ & ? & _); discriminate]].
      destruct (validateChannel this ch) as [ch' | e] eqn:Hch;
        [| split; [intros (? & ? & []) | intros (_ & _ & ?); discriminate]].
      split; [intros _ | intros _; rewrite exchange_sends; do 2 eexists; left; reflexivity].
      apply validateSeverity_Return in Hsv. destruct Hsv as [-> _].
      apply validateChannel_Return in Hch. subst ch'. auto.
    - rewrite (validateChannel_ok this ch).
      destruct (integer_within 1 None (effective_pid p)); cbn [negb];
        [| split; [intros (? & ? & []) | intros [? _]; discriminate]].
      destruct (validateChannel this ch) as [ch' | e] eqn:Hch;
        [| split; [intros (? & ? & []) | intros (_ & ?); discriminate]].
      split; [intros _ | intros _; rewrite exchange_sends; do 2 eexists; left; reflexivity].
      apply validateChannel_Return in Hch. subst ch'. auto. }
  split; [apply H | intros Hw _; now apply H].
Qed.

Lemma invoke_run_cases (this : ClientInstance) (net : transport) (c : call)
    (url : string) (init : RequestInit) :
  In (Fetched url init) (trace net (invoke this c)) ->
  exists body,
    url = url_base this ++ path_of c /\ init = post this body
    /\ run net (invoke this c) = exchange this net (path_of c) body.
Proof.
  unfold trace. intros Hin.
  destruct (invoke_cases this net c) as [(c0 & Hrun) | (body & Hrun)];
    rewrite Hrun in *; [destruct Hin |].
  apply exchange_fetched in Hin. destruct Hin as [-> ->]. eauto.
Qed.

(** X4.  Every request of a client that [create] returns is a POST with the
    headers Accept and Content-Type set to application/json and X-Api-Key set
    to the configured API key, and with the configured timeout, 30000 when
    none was given. *)
Theorem requests_carry_configuration (options : value) (client : ClientInstance)
    (net : transport) (c : call) (url : string) (init : RequestInit) :
  create options = Return client ->
  In (Fetched url init) (trace net (invoke client c)) ->
  exists k,
    option_of options "apiKey" = VString k
    /\ method init = "POST"
    /\ headers init = [("Accept", "application/json");
                       ("Content-Type", "application/json");
                       ("X-Api-Key", k)]
    /\ timeout init = timeout_of options.
Proof.
  intros Hcreate Hin. pose proof (create_first_failing options) as H.
  destruct (first_failing options) as [c' |]; [congruence |].
  destruct H as (h & n & k & d & _ & _ & Hk & _ & Hc).
  rewrite Hc in Hcreate. injection Hcreate as <-.
  apply invoke_run_cases in Hin. destruct Hin as (body & _ & -> & _).
  exists k. repeat split; assumption || reflexivity.
Qed.

(** X5.  A public method makes at most one request and never retries: its
    network trace is empty, or it is the one request to the path of the
    method, followed by the reading of the body as text when the answer has a
    status other than 200 and by nothing otherwise.  The body is never parsed
    as JSON. *)
Theorem at_most_one_request (this : ClientInstance) (net : transport) (c : call) :
  (trace net (invoke this c) = []
   \/ exists body,
        trace net (invoke this c)
        = Fetched (url_base this ++ path_of c) (post this body)
            :: reads_after (net (url_base this ++ path_of c) (post this body)))
  /\ ~ In ReadJson (trace net (invoke this c)).
Proof.
  unfold trace.
  destruct (invoke_cases this net c) as [(c0 & Hrun) | (body & Hrun)]; rewrite Hrun.
  - split; [now left | intros []].
  - rewrite exchange_sends. split; [right; eauto |].
    unfold reads_after. destruct (net _ _) as [r | e];
      [destruct (status r =? 200) |]; cbn.
    all: intros H; repeat destruct H as [H | H]; try discriminate; contradiction.
Qed.

(** X6.  When [fetch] rejects, the method rejects with the same reason,
    unwrapped, and nothing more happens on the network. *)
Theorem transport_failure_propagates (this : ClientInstance) (net : transport)
    (c : call) (url : string) (init : RequestInit) (e : exception) :
  In (Fetched url init) (trace net (invoke this c)) ->
  net url init = Throw e ->
  run net (invoke this c) = (Throw e, [Fetched url init]).
Proof.
  intros Hin Hnet. apply invoke_run_cases in Hin.
  destruct Hin as (body & -> & -> & ->).
  unfold exchange. cbv zeta. now rewrite Hnet.
Qed.

(** X7.  When the answer has status 200, the method resolves with no value
    and the body of the answer is not read. *)
Theorem status_200_resolves (this : ClientInstance) (net : transport)
    (c : call) (url : string) (init : RequestInit) (r : Response) :
  In (Fetched url init) (trace net (invoke this c)) ->
  net url init = Return r ->
  status r = 200 ->
  run net (invoke this c) = (Return VUndefined, [Fetched url init]).
Proof.
  intros Hin Hnet H200. apply invoke_run_cases in Hin.
  destruct Hin as (body & -> & -> & ->).
  unfold exchange. cbv zeta. now rewrite Hnet, H200.
Qed.

(** X8.  In [processWatch] a falsy name stands for [process.execPath] and a
    name that is a truthy string is handed on as it is.  A name that is a
    string or falsy never stops the call: with a pid, a severity and a
    channel that pass, the request goes out with that name. *)
Theorem processWatch_name_defaulting (this : ClientInstance) (net : transport)
    (pid name severity channel : value) :
  (truthy name = false ->
   processWatch this pid name severity channel
   = processWatch this pid (VString process_execPath) severity channel)
  /\ (name_ok name ->
      forall url init,
        In (Fetched url init) (trace net (processWatch this pid name severity channel)) ->
        exists body,
          init = post this body
          /\ get body "name" = (if truthy name then name else VString process_execPath)
          /\ typeof (get body "name") = "string")
  /\ (name_ok name ->
      integer_within 1 None (effective_pid pid) = true ->
      severity_ok severity -> channel_ok channel ->
      exists rest,
        trace net (processWatch this pid name severity channel)
        = Fetched (url_base this ++ "process/watch")
            (post this
               (object [("pid", effective_pid pid);
                        ("name", if truthy name then name
                                 else VString process_execPath);
                        ("channel", if truthy channel then channel
                                    else VString (default_channel this));
                        ("severity", if truthy severity then severity
                                     else VString "error")]))
            :: rest).
Proof.
  split; [| split].
  - intros H. unfold processWatch. rewrite H. cbn [negb].
    now destruct (truthy (VString process_execPath)).
  - intros Hn url init Hin.
    apply (invoke_request this net (call_processWatch pid name severity channel)) in Hin.
    destruct Hin as (_ & body & Hinit & _ & _ & _ & Hname & _).
    exists body. unfold effective_name in Hname. rewrite Hname.
    repeat split; try assumption.
    destruct (truthy name) eqn:Ht; [| reflexivity].
    destruct Hn as [Hf | Hty]; [congruence | exact Hty].
  - intros _ Hp Hs Hc. unfold trace.
    rewrite (processWatch_sends this net _ name _ _ Hp Hs Hc), exchange_sends.
    unfold effective_name. eauto.
Qed.

(** X9.  A public method sends its request only when every argument is well
    formed: for [error], [warn] and [info] a non-empty string message, for
    [processWatch] and [processUnwatch] a pid that is, after defaulting, an
    integer of at least 1, for [processWatch] a severity that is falsy or one
    of "error", "warn", "info", and for all a channel that is falsy or a
    string.  When they are, and the name given to [processWatch] is a string
    or falsy, the request is sent. *)
Theorem request_sent_when_well_formed (this : ClientInstance) (net : transport)
    (c : call) :
  ((exists url init, In (Fetched url init) (trace net (invoke this c)))
   -> well_formed c)
  /\ (well_formed c -> names_ok c ->
      exists url init, In (Fetched url init) (trace net (invoke this c))).
Proof. apply sends_well_formed. Qed.

(** X10.  The arguments are tested in the order of the parameters and the
    error names the first that fails: with a message that passes, a bad
    channel gives "Invalid channel"; in [processWatch], with a pid that
    passes, a bad severity gives "Invalid severity" whatever the channel, and
    a bad channel gives "Invalid channel" only after the severity has
    passed; in [processUnwatch] a bad channel gives "Invalid channel" after
    the pid has passed.  None of these calls reaches the network. *)
Theorem rejection_names_first_bad_argument (this : ClientInstance) (net : transport)
    (c : call) :
  match c with
  | call_error message channel | call_warn message channel
  | call_info message channel =>
      message_ok message -> ~ channel_ok channel ->
      run net (invoke this c) = (Throw (Error "Invalid channel"), [])
  | call_processWatch pid _ severity channel =>
      integer_within 1 None (effective_pid pid) = true ->
      (~ severity_ok severity ->
       run net (invoke this c) = (Throw (Error "Invalid severity"), []))
      /\ (severity_ok severity -> ~ channel_ok channel ->
          run net (invoke this c) = (Throw (Error "Invalid channel"), []))
  | call_processUnwatch pid channel =>
      integer_within 1 None (effective_pid pid) = true -> ~ channel_ok channel ->
      run net (invoke this c) = (Throw (Error "Invalid channel"), [])
  end.
Proof.
  destruct c as [m ch | m ch | m ch | p nm sv ch | p ch]; cbn [invoke].
  1: rewrite run_error, run_notify.
  2: rewrite run_warn, run_notify.
  3: rewrite run_info, run_notify.
  4: rewrite run_processWatch.
  5: rewrite run_processUnwatch.
  1-3: intros (s & -> & Hs) Hch; destruct s; [contradiction |];
    now rewrite (not_channel_ok this ch Hch).
  - intros ->. cbn [negb]. split.
    + intros Hsv. now rewrite (not_severity_ok sv Hsv).
    + intros Hsv Hch. apply validateSeverity_ok in Hsv.
      now rewrite Hsv, (not_channel_ok this ch Hch).
  - intros -> Hch. cbn [negb]. now rewrite (not_channel_ok this ch Hch).
Qed.

(** X11.  Every request of a client that [create] returns is well formed for
    the server in its validated fields: its channel is a non-empty string; a
    notification carries a non-empty string message and the severity of its
    method; a watch carries a pid that is an integer of at least 1 and a
    severity that is "error", "warn" or "info"; an unwatch carries a pid that
    is an integer of at least 1. *)
Theorem requests_are_well_formed (options : value) (client : ClientInstance)
    (net : transport) (c : call) (url : string) (init : RequestInit) :
  create options = Return client ->
  In (Fetched url init) (trace net (invoke client c)) ->
  exists body,
    init = post client body
    /\ (exists ch, get body "channel" = VString ch /\ ch <> "")
    /\ match c with
       | call_processWatch _ _ _ _ =>
           integer_within 1 None (get body "pid") = true
           /\ is_severity (get body "severity")
       | call_processUnwatch _ _ =>
           integer_within 1 None (get body "pid") = true
       | _ =>
           (exists s, get body "message" = VString s /\ s <> "")
           /\ exists level, level_of c = Some level
                            /\ get body "severity" = VString level
       end.
Proof.
  intros Hcreate Hin.
  apply create_Return_invariants in Hcreate. destruct Hcreate as (_ & Hd & _).
  assert (Hwf : well_formed c) by (apply (sends_well_formed client net); eauto).
  apply invoke_request in Hin. destruct Hin as (_ & body & Hinit & Hch & Hrest).
  exists body. split; [exact Hinit |]. split.
  - rewrite Hch.
    assert (Hok : channel_ok (channel_of c))
      by (destruct c; cbn [well_formed channel_of] in *; intuition).
    destruct (truthy (channel_of c)) eqn:Ht; [| eauto].
    destruct Hok as [Hf | Hty]; [congruence |].
    destruct (channel_of c) as [| | ? | ? | s | ? | ?]; try discriminate.
    exists s. split; [reflexivity |]. intros ->. discriminate.
  - destruct c as [m ch | m ch | m ch | p nm sv ch | p ch];
      cbn [well_formed level_of] in *.
    1-3: destruct Hwf as [(s & -> & Hs) _]; destruct Hrest as [Hm Hsev];
      split; eauto.
    + destruct Hrest as (Hp & Hpid & _ & _ & Hsev).
      rewrite Hp. split; assumption.
    + destruct Hrest as (Hp & Hpid). now rewrite Hp.
Qed.

(** X12.  What the validators return passes them unchanged: the severity
    and the channel put in a request can be given back as arguments and give
    the same request. *)
Theorem validators_are_idempotent (this : ClientInstance) :
  (forall severity sv, validateSeverity severity = Return sv ->
                       validateSeverity sv = Return sv)
  /\ (forall channel ch, validateChannel this channel = Return ch ->
                         validateChannel this ch = Return ch).
Proof.
  split.
  - intros severity sv H. apply validateSeverity_Return in H.
    destruct H as [_ [-> | [-> | ->]]]; reflexivity.
  - intros channel ch H. pose proof (validateChannel_Return _ _ _ H) as ->.
    destruct (truthy channel) eqn:Ht.
    + unfold validateChannel in *. rewrite Ht in *. cbn [andb] in *.
      destruct (negb (typeof channel =? "string")%string); [discriminate | assumption].
    + unfold validateChannel. cbn [typeof String.eqb negb andb].
      rewrite andb_false_r. destruct (truthy (VString (default_channel this))) eqn:E.
      * reflexivity.
      * cbn in E. apply negb_false_iff, String.eqb_eq in E. now rewrite E.
Qed.

(** X13.  Whatever options [sendRequest] is given, a rejected [fetch]
    rejects it with the same reason, and an answer with a status other than
    200 rejects it with the [ClientRequestError] after one reading of the
    body as text: the body is not parsed as JSON even when a response was
    asked for. *)
Theorem sendRequest_failure_paths (this : ClientInstance) (net : transport)
    (url : string) (body options : value) :
  (forall e, net (url_base this ++ url) (post this body) = Throw e ->
             run net (sendRequest this url body options)
             = (Throw e, [Fetched (url_base this ++ url) (post this body)]))
  /\ (forall r, net (url_base this ++ url) (post this body) = Return r ->
                status r <> 200 ->
                run net (sendRequest this url body options)
                = (Throw (ClientRequestError
                            (diagnostic r ++ " [Status: " ++ Z_toString (status r) ++ "]")
                            (status r)),
                   [Fetched (url_base this ++ url) (post this body); ReadText])).
Proof.
  rewrite run_sendRequest. cbv zeta. split.
  - intros e ->. reflexivity.
  - intros r -> Hs. destruct (Z.eqb_spec (status r) 200); [contradiction | reflexivity].
Qed.

End Client.

(** ** Runs on the demo configuration *)

Example create_demo : create unreached_numeral demo_options = Return demo_client.
Proof. reflexivity. Qed.

Example create_undefined :
  create unreached_numeral VUndefined = Throw (Error "Invalid options").
Proof. reflexivity. Qed.

Example create_array :
  create unreached_numeral (VArray [demo_options]) = Throw (Error "Invalid options").
Proof. reflexivity. Qed.

Example create_null : create unreached_numeral VNull = Throw (Error "Invalid host").
Proof. reflexivity. Qed.

Example create_missing_host :
  create unreached_numeral (demo_with "host" VUndefined) = Throw (Error "Invalid host").
Proof. reflexivity. Qed.

Example create_empty_host :
  create unreached_numeral (demo_with "host" (VString "")) = Throw (Error "Invalid host").
Proof. reflexivity. Qed.

Example create_port_0 :
  create unreached_numeral (demo_with "port" (VNumber (Number.of_Z 0)))
  = Throw (Error "Invalid port").
Proof. reflexivity. Qed.

Example create_port_65536 :
  create unreached_numeral (demo_with "port" (VNumber (Number.of_Z 65536)))
  = Throw (Error "Invalid port").
Proof. reflexivity. Qed.

(** 80.5 is 161 * 2^-1. *)
Example create_port_80_5 :
  create unreached_numeral (demo_with "port" (VNumber (Finite 161 (-1))))
  = Throw (Error "Invalid port").
Proof. reflexivity. Qed.

Example create_port_NaN :
  create unreached_numeral (demo_with "port" (VNumber NaN)) = Throw (Error "Invalid port").
Proof. reflexivity. Qed.

Example create_port_string :
  create unreached_numeral (demo_with "port" (VString "3004"))
  = Throw (Error "Invalid port").
Proof. reflexivity. Qed.

Example create_useSsl_1 :
  create unreached_numeral (demo_with "useSsl" (VNumber (Number.of_Z 1)))
  = Return {| url_base := "https://127.0.0.1:3004/";
              api_key := "set-some-key";
              default_channel := "default";
              client_timeout := Number.of_Z 30000 |}.
Proof. reflexivity. Qed.

Example create_useSsl_0 :
  create unreached_numeral (demo_with "useSsl" (VNumber (Number.of_Z 0)))
  = Return demo_client.
Proof. reflexivity. Qed.

Example create_useSsl_string :
  create unreached_numeral (demo_with "useSsl" (VString "yes"))
  = Throw (Error "Invalid use ssl").
Proof. reflexivity. Qed.

Example create_empty_apiKey :
  create unreached_numeral (demo_with "apiKey" (VString ""))
  = Throw (Error "Invalid API key").
Proof. reflexivity. Qed.

Example create_empty_defaultChannel :
  create unreached_numeral (demo_with "defaultChannel" (VString ""))
  = Throw (Error "Invalid default channel").
Proof. reflexivity. Qed.

Example create_timeout_0 :
  create unreached_numeral (demo_with "timeout" (VNumber (Number.of_Z 0)))
  = Throw (Error "Invalid timeout").
Proof. reflexivity. Qed.

Example create_timeout_negative :
  create unreached_numeral (demo_with "timeout" (VNumber (Number.of_Z (-5))))
  = Throw (Error "Invalid timeout").
Proof. reflexivity. Qed.

(** 2.5 is 5 * 2^-1. *)
Example create_timeout_2_5 :
  create unreached_numeral (demo_with "timeout" (VNumber (Finite 5 (-1))))
  = Throw (Error "Invalid timeout").
Proof. reflexivity. Qed.

Example create_timeout_Infinity :
  create unreached_numeral (demo_with "timeout" (VNumber (Infinity false)))
  = Throw (Error "Invalid timeout").
Proof. reflexivity. Qed.

Example create_timeout_null :
  create unreached_numeral (demo_with "timeout" VNull) = Throw (Error "Invalid timeout").
Proof. reflexivity. Qed.

Example create_timeout_5000 :
  create unreached_numeral (demo_with "timeout" (VNumber (Number.of_Z 5000)))
  = Return {| url_base := "http://127.0.0.1:3004/";
              api_key := "set-some-key";
              default_channel := "default";
              client_timeout := Number.of_Z 5000 |}.
Proof. reflexivity. Qed.

(** The first failing check wins: a bad port is reported before a bad key. *)
Example create_port_before_apiKey :
  create unreached_numeral
    (object [("host", VString "127.0.0.1"); ("port", VNumber (Number.of_Z 0));
             ("apiKey", VString ""); ("defaultChannel", VString "")])
  = Throw (Error "Invalid port").
Proof. reflexivity. Qed.

Example error_msg_on_200 :
  run server_ok (error demo_client (VString "msg") VUndefined)
  = (Return VUndefined, [Fetched "http://127.0.0.1:3004/notify" demo_request]).
Proof. reflexivity. Qed.

Example error_msg_on_500_boom :
  run server_boom (error demo_client (VString "msg") VUndefined)
  = (Throw (ClientRequestError "boom [Status: 500]" 500),
     [Fetched "http://127.0.0.1:3004/notify" demo_request; ReadText]).
Proof. reflexivity. Qed.

Example error_msg_on_500_unreadable :
  run server_unreadable (error demo_client (VString "msg") VUndefined)
  = (Throw (ClientRequestError "Unsuccessful response from node. [Status: 500]" 500),
     [Fetched "http://127.0.0.1:3004/notify" demo_request; ReadText]).
Proof. reflexivity. Qed.

Example info_empty : info demo_client (VString "") VUndefined = Resolve VUndefined.
Proof. reflexivity. Qed.

Example warn_not_a_string :
  warn demo_client (VNumber (Number.of_Z 7)) VUndefined = Reject (Error "Invalid message").
Proof. reflexivity. Qed.

Example processWatch_0 :
  run server_ok
    (processWatch demo_pid demo_execPath demo_client
       (VNumber (Number.of_Z 0)) (VString "x") VUndefined VUndefined)
  = (Return VUndefined,
     [Fetched "http://127.0.0.1:3004/process/watch"
        (post demo_client
           (object [("pid", VNumber demo_pid); ("name", VString "x");
                    ("channel", VString "default"); ("severity", VString "error")]))]).
Proof. reflexivity. Qed.

Example processWatch_bogus :
  processWatch demo_pid demo_execPath demo_client
    (VNumber (Number.of_Z 1234)) (VString "x") (VString "bogus") VUndefined
  = Reject (Error "Invalid severity").
Proof. reflexivity. Qed.

Example processUnwatch_defaults :
  run server_ok (processUnwatch demo_pid demo_client VUndefined VUndefined)
  = (Return VUndefined,
     [Fetched "http://127.0.0.1:3004/process/unwatch"
        (post demo_client
           (object [("pid", VNumber demo_pid); ("channel", VString "default")]))]).
Proof. reflexivity. Qed.

Example processUnwatch_negative :
  processUnwatch demo_pid demo_client (VNumber (Number.of_Z (-1))) VUndefined
  = Reject (Error "Invalid process id").
Proof. reflexivity. Qed.

(** ** The theorems at work on the demo configuration *)

(** A POST answered with status 500 and body "boom" fails the operation with
    the message "boom [Status: 500]" and the status code 500. *)
Lemma non_200_raises_ClientRequestError_witness :
  In (Fetched "http://127.0.0.1:3004/notify" demo_request)
     (trace server_boom
        (invoke demo_pid demo_execPath demo_client
           (call_error (VString "msg") VUndefined)))
  /\ server_boom "http://127.0.0.1:3004/notify" demo_request = Return boom_response
  /\ status boom_response <> 200
  /\ outcome server_boom
       (invoke demo_pid demo_execPath demo_client (call_error (VString "msg") VUndefined))
     = Throw (ClientRequestError "boom [Status: 500]" 500).
Proof.
  assert (Hin : In (Fetched "http://127.0.0.1:3004/notify" demo_request)
                   (trace server_boom
                      (invoke demo_pid demo_execPath demo_client
                         (call_error (VString "msg") VUndefined))))
    by (left; reflexivity).
  assert (Hstatus : status boom_response <> 200) by discriminate.
  split; [exact Hin | split; [reflexivity | split; [exact Hstatus |]]].
  destruct (non_200_raises_ClientRequestError demo_pid demo_execPath demo_client
              server_boom (call_error (VString "msg") VUndefined)
              "http://127.0.0.1:3004/notify" demo_request boom_response
              Hin eq_refl Hstatus) as (detail & Hout & Htext & _).
  rewrite Hout, (Htext "boom" eq_refl); [reflexivity | discriminate].
Defined.

(** [info] with a number for message fails before the network, and
    [info("")] resolves with no network event. *)
Lemma notification_message_contract_witness :
  In info [error; warn; info]
  /\ typeof (VNumber (Number.of_Z 7)) <> "string"
  /\ run server_ok (info demo_client (VNumber (Number.of_Z 7)) VUndefined)
     = (Throw (Error "Invalid message"), [])
  /\ run server_ok (info demo_client (VString "") VUndefined) = (Return VUndefined, []).
Proof.
  assert (Hin : In info [error; warn; info]) by (right; right; left; reflexivity).
  assert (Hty : typeof (VNumber (Number.of_Z 7)) <> "string") by discriminate.
  split; [exact Hin | split; [exact Hty | split]].
  - exact (proj1 (notification_message_contract demo_client server_ok info
                    (VNumber (Number.of_Z 7)) VUndefined Hin) Hty).
  - exact (proj2 (notification_message_contract demo_client server_ok info
                    (VString "") VUndefined Hin) eq_refl).
Defined.

(** Port 0 is one of the listed failures, and construction fails on it. *)
Lemma create_checks_in_order_witness :
  listed_failure (demo_with "port" (VNumber (Number.of_Z 0)))
  /\ exists m, create unreached_numeral (demo_with "port" (VNumber (Number.of_Z 0)))
               = Throw (Error m).
Proof.
  assert (H : listed_failure (demo_with "port" (VNumber (Number.of_Z 0)))).
  { right; right; left. exists (Number.of_Z 0).
    split; [reflexivity | left; reflexivity]. }
  split; [exact H |].
  exact (proj2 (create_checks_in_order unreached_numeral
                  (demo_with "port" (VNumber (Number.of_Z 0)))) H).
Defined.

(** The demo options are accepted, and the base URL is built from them. *)
Lemma create_url_base_witness :
  create unreached_numeral demo_options = Return demo_client
  /\ exists h n p,
       option_of demo_options "host" = VString h
       /\ option_of demo_options "port" = VNumber n
       /\ Number.to_Z n = Some p /\ 1 <= p <= 65535
       /\ url_base demo_client =
            "http" ++ (if useSsl_of demo_options then "s" else "") ++ "://" ++ h ++ ":"
              ++ Z_toString p ++ "/".
Proof.
  split; [reflexivity |].
  exact (proj1 (create_url_base demo_pid demo_execPath unreached_numeral
                  demo_options demo_client eq_refl)).
Defined.

Lemma getDefaultChannel_is_configured_witness :
  create unreached_numeral demo_options = Return demo_client
  /\ exists d, option_of demo_options "defaultChannel" = VString d
               /\ getDefaultChannel demo_client = d.
Proof.
  split; [reflexivity |].
  exact (getDefaultChannel_is_configured unreached_numeral demo_options demo_client
           eq_refl).
Defined.

(** [processWatch(0, "x")] is [processWatch(process.pid, "x")] and sends
    [process.pid]; a pid of 1.5 is refused before the network; a pid of 1 is
    accepted and sent. *)
Lemma pid_defaulting_and_validation_witness :
  truthy (VNumber (Number.of_Z 0)) = false
  /\ processWatch demo_pid demo_execPath demo_client
       (VNumber (Number.of_Z 0)) (VString "x") VUndefined VUndefined
     = processWatch demo_pid demo_execPath demo_client
         (VNumber demo_pid) (VString "x") VUndefined VUndefined
  /\ integer_within 1 None (effective_pid demo_pid (VNumber (Finite 3 (-1)))) = false
  /\ run server_ok
       (processWatch demo_pid demo_execPath demo_client
          (VNumber (Finite 3 (-1))) (VString "x") VUndefined VUndefined)
     = (Throw (Error "Invalid process id"), [])
  /\ integer_within 1 None (effective_pid demo_pid (VNumber (Number.of_Z 0))) = true
  /\ severity_ok VUndefined
  /\ channel_ok VUndefined
  /\ name_ok (VString "x")
  /\ (exists rest,
        trace server_ok
          (processWatch demo_pid demo_execPath demo_client
             (VNumber (Number.of_Z 0)) (VString "x") VUndefined VUndefined)
        = Fetched "http://127.0.0.1:3004/process/watch"
            (post demo_client
               (object [("pid", VNumber demo_pid); ("name", VString "x");
                        ("channel", VString "default"); ("severity", VString "error")]))
            :: rest)
  /\ integer_within 1 None (effective_pid demo_pid (VNumber (Number.of_Z 1))) = true
  /\ (exists rest,
        trace server_ok
          (processUnwatch demo_pid demo_client (VNumber (Number.of_Z 1)) VUndefined)
        = Fetched "http://127.0.0.1:3004/process/unwatch"
            (post demo_client
               (object [("pid", VNumber (Number.of_Z 1)); ("channel", VString "default")]))
            :: rest).
Proof.
  assert (Hs : severity_ok VUndefined) by (left; reflexivity).
  assert (Hc : channel_ok VUndefined) by (left; reflexivity).
  assert (Hn : name_ok (VString "x")) by (right; reflexivity).
  split; [reflexivity | split; [| split; [reflexivity | split]]].
  - exact (proj1 (proj1 (pid_defaulting_and_validation demo_pid demo_execPath
                           demo_client server_ok (VNumber (Number.of_Z 0))
                           (VString "x") VUndefined VUndefined) eq_refl)).
  - exact (proj1 (proj1 (proj2 (pid_defaulting_and_validation demo_pid demo_execPath
                                  demo_client server_ok (VNumber (Finite 3 (-1)))
                                  (VString "x") VUndefined VUndefined)) eq_refl)).
  - split; [reflexivity | split; [exact Hs | split; [exact Hc | split; [exact Hn |]]]].
    split; [| split; [reflexivity |]].
    + exact (proj1 (proj2 (proj2 (proj2
               (pid_defaulting_and_validation demo_pid demo_execPath demo_client
                  server_ok (VNumber (Number.of_Z 0)) (VString "x")
                  VUndefined VUndefined))) eq_refl) Hs Hc Hn).
    + exact (proj2 (proj2 (proj2 (proj2
               (pid_defaulting_and_validation demo_pid demo_execPath demo_client
                  server_ok (VNumber (Number.of_Z 1)) (VString "x")
                  VUndefined VUndefined))) eq_refl) Hc).
Defined.

(** [processWatch(1234, "x", "bogus")] fails before the network with
    "Invalid severity"; "info" is returned by [validateSeverity] as it is and
    [processWatch(1234, "x", "info")] sends it; [processWatch(1234, "x")]
    sends "error". *)
Lemma severity_defaulting_and_validation_witness :
  truthy (VString "bogus") = true
  /\ ~ is_severity (VString "bogus")
  /\ (exists m,
        run server_ok
          (processWatch demo_pid demo_execPath demo_client
             (VNumber (Number.of_Z 1234)) (VString "x") (VString "bogus") VUndefined)
        = (Throw (Error m), []))
  /\ integer_within 1 None (effective_pid demo_pid (VNumber (Number.of_Z 1234))) = true
  /\ run server_ok
       (processWatch demo_pid demo_execPath demo_client
          (VNumber (Number.of_Z 1234)) (VString "x") (VString "bogus") VUndefined)
     = (Throw (Error "Invalid severity"), [])
  /\ is_severity (VString "info")
  /\ validateSeverity (VString "info") = Return (VString "info")
  /\ severity_ok (VString "info")
  /\ channel_ok VUndefined
  /\ name_ok (VString "x")
  /\ (exists rest,
        trace server_ok
          (processWatch demo_pid demo_execPath demo_client
             (VNumber (Number.of_Z 1234)) (VString "x") (VString "info") VUndefined)
        = Fetched "http://127.0.0.1:3004/process/watch"
            (post demo_client
               (object [("pid", VNumber (Number.of_Z 1234)); ("name", VString "x");
                        ("channel", VString "default"); ("severity", VString "info")]))
            :: rest)
  /\ severity_ok VUndefined
  /\ (exists rest,
        trace server_ok
          (processWatch demo_pid demo_execPath demo_client
             (VNumber (Number.of_Z 1234)) (VString "x") VUndefined VUndefined)
        = Fetched "http://127.0.0.1:3004/process/watch"
            (post demo_client
               (object [("pid", VNumber (Number.of_Z 1234)); ("name", VString "x");
                        ("channel", VString "default"); ("severity", VString "error")]))
            :: rest).
Proof.
  assert (H : ~ is_severity (VString "bogus"))
    by (intros [H | [H | H]]; discriminate).
  assert (Hi : is_severity (VString "info")) by (right; right; reflexivity).
  assert (Hsi : severity_ok (VString "info")) by (right; exact Hi).
  assert (Hsu : severity_ok VUndefined) by (left; reflexivity).
  assert (Hc : channel_ok VUndefined) by (left; reflexivity).
  assert (Hn : name_ok (VString "x")) by (right; reflexivity).
  pose (at_bogus := severity_defaulting_and_validation demo_pid demo_execPath
                   demo_client server_ok (VNumber (Number.of_Z 1234))
                   (VString "x") (VString "bogus") VUndefined).
  pose (at_info := severity_defaulting_and_validation demo_pid demo_execPath
                  demo_client server_ok (VNumber (Number.of_Z 1234))
                  (VString "x") (VString "info") VUndefined).
  pose (at_omitted := severity_defaulting_and_validation demo_pid demo_execPath
                     demo_client server_ok (VNumber (Number.of_Z 1234))
                     (VString "x") VUndefined VUndefined).
  split; [reflexivity | split; [exact H | split]].
  - exact (proj1 (proj2 at_bogus) eq_refl H).
  - split; [reflexivity | split].
    + exact (proj1 (proj2 (proj2 (proj2 (proj2 (proj2 at_bogus))))) eq_refl H eq_refl).
    + split; [exact Hi | split].
      * exact (proj1 (proj2 (proj2 (proj2 (proj2 at_info)))) Hi).
      * split; [exact Hsi | split; [exact Hc | split; [exact Hn | split]]].
        -- exact (proj2 (proj2 (proj2 (proj2 (proj2 (proj2 at_info))))) Hsi eq_refl Hc Hn).
        -- split; [exact Hsu |].
           exact (proj2 (proj2 (proj2 (proj2 (proj2 (proj2 at_omitted))))) Hsu eq_refl Hc Hn).
Defined.

(** [error("msg", 5)] sends nothing and fails. *)
Lemma channel_defaulting_and_validation_witness :
  truthy (VNumber (Number.of_Z 5)) = true
  /\ typeof (VNumber (Number.of_Z 5)) <> "string"
  /\ trace server_ok
       (invoke demo_pid demo_execPath demo_client
          (call_error (VString "msg") (VNumber (Number.of_Z 5)))) = []
  /\ exists m,
       outcome server_ok
         (invoke demo_pid demo_execPath demo_client
            (call_error (VString "msg") (VNumber (Number.of_Z 5))))
       = Throw (Error m).
Proof.
  assert (H : typeof (VNumber (Number.of_Z 5)) <> "string") by discriminate.
  split; [reflexivity | split; [exact H |]].
  exact (proj1 (proj2 (channel_defaulting_and_validation demo_pid demo_execPath
                         demo_client server_ok
                         (call_error (VString "msg") (VNumber (Number.of_Z 5)))))
           eq_refl H).
Defined.

(** On a 200 answer, [no_response: true] reads nothing and no options parses
    the body. *)
Lemma sendRequest_on_200_witness :
  server_ok (url_base demo_client ++ "notify") (post demo_client VNull) = Return ok_response
  /\ status ok_response = 200
  /\ run server_ok
       (sendRequest demo_client "notify" VNull (object [("no_response", VBool true)]))
     = (Return VUndefined,
        [Fetched (url_base demo_client ++ "notify") (post demo_client VNull)])
  /\ run server_ok (sendRequest demo_client "notify" VNull VUndefined)
     = (json ok_response,
        [Fetched (url_base demo_client ++ "notify") (post demo_client VNull); ReadJson]).
Proof.
  split; [reflexivity | split; [reflexivity | split]].
  - exact (proj1 (sendRequest_on_200 demo_client server_ok "notify" VNull
                    (object [("no_response", VBool true)]) ok_response
                    eq_refl eq_refl) eq_refl).
  - exact (proj2 (sendRequest_on_200 demo_client server_ok "notify" VNull
                    VUndefined ok_response eq_refl eq_refl) eq_refl).
Defined.


(** ** Where the specification says more than the client does *)

(** C6, as stated, fails: the empty string is a severity that is provided and
    is none of "error", "warn" and "info", and [processWatch] does not fail
    on it: the request goes out with severity "error" and the call
    resolves. *)
Lemma severity_empty_string_is_not_rejected :
  VString "" <> VUndefined
  /\ ~ is_severity (VString "")
  /\ run server_ok
       (processWatch demo_pid demo_execPath demo_client
          (VNumber (Number.of_Z 1234)) (VString "x") (VString "") VUndefined)
     = (Return VUndefined,
        [Fetched "http://127.0.0.1:3004/process/watch"
           (post demo_client
              (object [("pid", VNumber (Number.of_Z 1234)); ("name", VString "x");
                       ("channel", VString "default"); ("severity", VString "error")]))])
  /\ ~ (exists e,
          outcome server_ok
            (processWatch demo_pid demo_execPath demo_client
               (VNumber (Number.of_Z 1234)) (VString "x") (VString "") VUndefined)
          = Throw e).
Proof.
  split; [discriminate | split; [| split]].
  - intros [H | [H | H]]; discriminate.
  - reflexivity.
  - intros [e H]. discriminate.
Qed.

(** C7, as stated, fails: [true] is a channel that is provided and is not a
    string, and [error("", true)] does not fail: it resolves, with no network
    event. *)
Lemma nonstring_channel_is_not_rejected :
  truthy (VBool true) = true
  /\ typeof (VBool true) <> "string"
  /\ run server_ok (error demo_client (VString "") (VBool true)) = (Return VUndefined, [])
  /\ ~ (exists e,
          outcome server_ok (error demo_client (VString "") (VBool true)) = Throw e).
Proof.
  split; [reflexivity | split; [discriminate | split; [reflexivity |]]].
  intros [e H]. discriminate.
Qed.

(** ** The further theorems at work on the demo configuration *)

Lemma create_ignores_other_properties_witness :
  ~ In "retries" option_names
  /\ create unreached_numeral (demo_with "retries" (VNumber (Number.of_Z 3)))
     = create unreached_numeral demo_options.
Proof.
  assert (H : ~ In "retries" option_names).
  { intros H. simpl in H. repeat destruct H as [H | H]; discriminate || contradiction. }
  split; [exact H |].
  exact (proj1 (create_ignores_other_properties unreached_numeral
                  (spread demo_options) "retries" (VNumber (Number.of_Z 3)) H)).
Defined.

Lemma created_client_invariants_witness :
  create unreached_numeral demo_options = Return demo_client
  /\ api_key demo_client <> ""
  /\ default_channel demo_client <> ""
  /\ integer_within 1 None (VNumber (client_timeout demo_client)) = true.
Proof.
  split; [reflexivity |].
  exact (created_client_invariants unreached_numeral demo_options demo_client eq_refl).
Defined.

Lemma requests_carry_configuration_witness :
  create unreached_numeral demo_options = Return demo_client
  /\ In (Fetched "http://127.0.0.1:3004/notify" demo_request)
        (trace server_ok
           (invoke demo_pid demo_execPath demo_client
              (call_error (VString "msg") VUndefined)))
  /\ exists k,
       option_of demo_options "apiKey" = VString k
       /\ method demo_request = "POST"
       /\ headers demo_request = [("Accept", "application/json");
                                  ("Content-Type", "application/json");
                                  ("X-Api-Key", k)]
       /\ timeout demo_request = timeout_of demo_options.
Proof.
  assert (Hin : In (Fetched "http://127.0.0.1:3004/notify" demo_request)
                   (trace server_ok
                      (invoke demo_pid demo_execPath demo_client
                         (call_error (VString "msg") VUndefined))))
    by (left; reflexivity).
  split; [reflexivity | split; [exact Hin |]].
  exact (requests_carry_configuration demo_pid demo_execPath unreached_numeral
           demo_options demo_client server_ok
           (call_error (VString "msg") VUndefined)
           "http://127.0.0.1:3004/notify" demo_request eq_refl Hin).
Defined.

Lemma transport_failure_propagates_witness :
  In (Fetched "http://127.0.0.1:3004/notify" demo_request)
     (trace server_down
        (invoke demo_pid demo_execPath demo_client
           (call_error (VString "msg") VUndefined)))
  /\ server_down "http://127.0.0.1:3004/notify" demo_request
     = Throw (FetchError "ECONNREFUSED")
  /\ run server_down
       (invoke demo_pid demo_execPath demo_client (call_error (VString "msg") VUndefined))
     = (Throw (FetchError "ECONNREFUSED"),
        [Fetched "http://127.0.0.1:3004/notify" demo_request]).
Proof.
  assert (Hin : In (Fetched "http://127.0.0.1:3004/notify" demo_request)
                   (trace server_down
                      (invoke demo_pid demo_execPath demo_client
                         (call_error (VString "msg") VUndefined))))
    by (left; reflexivity).
  split; [exact Hin | split; [reflexivity |]].
  exact (transport_failure_propagates demo_pid demo_execPath demo_client server_down
           (call_error (VString "msg") VUndefined)
           "http://127.0.0.1:3004/notify" demo_request
           (FetchError "ECONNREFUSED") Hin eq_refl).
Defined.

Lemma status_200_resolves_witness :
  In (Fetched "http://127.0.0.1:3004/notify" demo_request)
     (trace server_ok
        (invoke demo_pid demo_execPath demo_client
           (call_error (VString "msg") VUndefined)))
  /\ server_ok "http://127.0.0.1:3004/notify" demo_request = Return ok_response
  /\ status ok_response = 200
  /\ run server_ok
       (invoke demo_pid demo_execPath demo_client (call_error (VString "msg") VUndefined))
     = (Return VUndefined, [Fetched "http://127.0.0.1:3004/notify" demo_request]).
Proof.
  assert (Hin : In (Fetched "http://127.0.0.1:3004/notify" demo_request)
                   (trace server_ok
                      (invoke demo_pid demo_execPath demo_client
                         (call_error (VString "msg") VUndefined))))
    by (left; reflexivity).
  split; [exact Hin | split; [reflexivity | split; [reflexivity |]]].
  exact (status_200_resolves demo_pid demo_execPath demo_client server_ok
           (call_error (VString "msg") VUndefined)
           "http://127.0.0.1:3004/notify" demo_request ok_response
           Hin eq_refl eq_refl).
Defined.

Lemma processWatch_name_defaulting_witness :
  truthy VUndefined = false
  /\ processWatch demo_pid demo_execPath demo_client
       (VNumber (Number.of_Z 1234)) VUndefined VUndefined VUndefined
     = processWatch demo_pid demo_execPath demo_client
         (VNumber (Number.of_Z 1234)) (VString demo_execPath) VUndefined VUndefined
  /\ name_ok VUndefined
  /\ integer_within 1 None (effective_pid demo_pid (VNumber (Number.of_Z 1234))) = true
  /\ severity_ok VUndefined
  /\ channel_ok VUndefined
  /\ exists rest,
       trace server_ok
         (processWatch demo_pid demo_execPath demo_client
            (VNumber (Number.of_Z 1234)) VUndefined VUndefined VUndefined)
       = Fetched "http://127.0.0.1:3004/process/watch"
           (post demo_client
              (object [("pid", VNumber (Number.of_Z 1234));
                       ("name", VString demo_execPath);
                       ("channel", VString "default"); ("severity", VString "error")]))
           :: rest.
Proof.
  assert (Hn : name_ok VUndefined) by (left; reflexivity).
  assert (Hs : severity_ok VUndefined) by (left; reflexivity).
  assert (Hc : channel_ok VUndefined) by (left; reflexivity).
  split; [reflexivity | split].
  - exact (proj1 (processWatch_name_defaulting demo_pid demo_execPath demo_client
                    server_ok (VNumber (Number.of_Z 1234)) VUndefined VUndefined
                    VUndefined) eq_refl).
  - split; [exact Hn | split; [reflexivity | split; [exact Hs | split; [exact Hc |]]]].
    exact (proj2 (proj2 (processWatch_name_defaulting demo_pid demo_execPath
                           demo_client server_ok (VNumber (Number.of_Z 1234))
                           VUndefined VUndefined VUndefined))
             Hn eq_refl Hs Hc).
Defined.

Lemma request_sent_when_well_formed_witness :
  well_formed demo_pid
    (call_processWatch (VNumber (Number.of_Z 1234)) (VString "x") VUndefined VUndefined)
  /\ names_ok
       (call_processWatch (VNumber (Number.of_Z 1234)) (VString "x") VUndefined VUndefined)
  /\ exists url init,
       In (Fetched url init)
          (trace server_ok
             (invoke demo_pid demo_execPath demo_client
                (call_processWatch (VNumber (Number.of_Z 1234)) (VString "x")
                   VUndefined VUndefined))).
Proof.
  assert (H : well_formed demo_pid
                (call_processWatch (VNumber (Number.of_Z 1234)) (VString "x")
                   VUndefined VUndefined)).
  { split; [reflexivity | split; left; reflexivity]. }
  assert (Hn : names_ok
                 (call_processWatch (VNumber (Number.of_Z 1234)) (VString "x")
                    VUndefined VUndefined)) by (right; reflexivity).
  split; [exact H | split; [exact Hn |]].
  exact (proj2 (request_sent_when_well_formed demo_pid demo_execPath demo_client
                  server_ok
                  (call_processWatch (VNumber (Number.of_Z 1234)) (VString "x")
                     VUndefined VUndefined)) H Hn).
Defined.

Lemma rejection_names_first_bad_argument_witness :
  integer_within 1 None (effective_pid demo_pid (VNumber (Number.of_Z 1234))) = true
  /\ ~ severity_ok (VString "bogus")
  /\ run server_ok
       (invoke demo_pid demo_execPath demo_client
          (call_processWatch (VNumber (Number.of_Z 1234)) (VString "x")
             (VString "bogus") (VNumber (Number.of_Z 5))))
     = (Throw (Error "Invalid severity"), []).
Proof.
  assert (H : ~ severity_ok (VString "bogus")).
  { intros [H | [H | [H | H]]]; discriminate. }
  split; [reflexivity | split; [exact H |]].
  exact (proj1 (rejection_names_first_bad_argument demo_pid demo_execPath demo_client
                  server_ok
                  (call_processWatch (VNumber (Number.of_Z 1234)) (VString "x")
                     (VString "bogus") (VNumber (Number.of_Z 5)))
                  eq_refl) H).
Defined.

Lemma requests_are_well_formed_witness :
  create unreached_numeral demo_options = Return demo_client
  /\ In (Fetched "http://127.0.0.1:3004/notify" demo_request)
        (trace server_ok
           (invoke demo_pid demo_execPath demo_client
              (call_error (VString "msg") VUndefined)))
  /\ exists body,
       demo_request = post demo_client body
       /\ (exists ch, get body "channel" = VString ch /\ ch <> "")
       /\ (exists s, get body "message" = VString s /\ s <> "")
       /\ exists level,
            level_of (call_error (VString "msg") VUndefined) = Some level
            /\ get body "severity" = VString level.
Proof.
  assert (Hin : In (Fetched "http://127.0.0.1:3004/notify" demo_request)
                   (trace server_ok
                      (invoke demo_pid demo_execPath demo_client
                         (call_error (VString "msg") VUndefined))))
    by (left; reflexivity).
  split; [reflexivity | split; [exact Hin |]].
  exact (requests_are_well_formed demo_pid demo_execPath unreached_numeral
           demo_options demo_client server_ok
           (call_error (VString "msg") VUndefined)
           "http://127.0.0.1:3004/notify" demo_request eq_refl Hin).
Defined.

Lemma validators_are_idempotent_witness :
  validateSeverity VNull = Return (VString "error")
  /\ validateSeverity (VString "error") = Return (VString "error")
  /\ validateChannel demo_client (VNumber (Number.of_Z 0)) = Return (VString "default")
  /\ validateChannel demo_client (VString "default") = Return (VString "default").
Proof.
  split; [reflexivity | split; [| split; [reflexivity |]]].
  - exact (proj1 (validators_are_idempotent demo_client) VNull (VString "error")
             eq_refl).
  - exact (proj2 (validators_are_idempotent demo_client) (VNumber (Number.of_Z 0))
             (VString "default") eq_refl).
Defined.

Lemma sendRequest_failure_paths_witness :
  server_boom (url_base demo_client ++ "notify") (post demo_client VNull)
  = Return boom_response
  /\ status boom_response <> 200
  /\ run server_boom (sendRequest demo_client "notify" VNull VUndefined)
     = (Throw (ClientRequestError "boom [Status: 500]" 500),
        [Fetched (url_base demo_client ++ "notify") (post demo_client VNull); ReadText]).
Proof.
  assert (H : status boom_response <> 200) by discriminate.
  split; [reflexivity | split; [exact H |]].
  exact (proj2 (sendRequest_failure_paths demo_client server_boom "notify" VNull
                  VUndefined) boom_response eq_refl H).
Defined.
